(** * Dagda: the Sysdig/Falco runtime monitor

    A shallow embedding of [dagda/analysis/runtime/sysdig_falco_monitor.py]
    (class [SysdigFalcoMonitor]) and the properties of its log classifier,
    its pre-flight check and its tailing loop.

    Python [str] values are lists of Unicode code points, [bytes] values are
    lists of [Byte.byte].  Calls into the Docker driver, MongoDB driver,
    logger, clock and file system are recorded in a trace of actions; what
    those collaborators answer is read from a [World]. *)

From Stdlib Require Import List NArith ZArith Bool Lia.
From Stdlib.Strings Require Import Ascii String Byte.
Import ListNotations.

(** ** Python built-ins used by the monitor *)

Module Py.

(** A character is a Unicode code point; a [str] is a sequence of them. *)
Definition char := N.
Definition str := list char.
Definition bytes := list byte.

(** The newline character. *)
Definition LF : char := 10%N.

(** A source literal (all literals of the monitor are ASCII). *)
Definition lit (s : string) : str :=
  List.map N_of_ascii (list_ascii_of_string s).

Fixpoint str_eqb (a b : str) : bool :=
  match a, b with
  | [], [] => true
  | x :: a', y :: b' => N.eqb x y && str_eqb a' b'
  | _, _ => false
  end.

(** [bool(s)] for a string: non-empty. *)
Definition truthy (s : str) : bool :=
  match s with [] => false | _ :: _ => true end.

(** [s.startswith(p)] *)
Fixpoint startswith (s p : str) : bool :=
  match p with
  | [] => true
  | c :: p' =>
      match s with
      | [] => false
      | d :: s' => N.eqb d c && startswith s' p'
      end
  end.

(** [sub in s] for strings: [sub] occurs somewhere in [s]. *)
Fixpoint contains (s sub : str) : bool :=
  startswith s sub ||
  match s with
  | [] => false
  | _ :: s' => contains s' sub
  end.

(** [s.split(sep)] for a one-character separator. *)
Fixpoint split (sep : char) (s : str) : list str :=
  match s with
  | [] => [[]]
  | c :: s' =>
      if N.eqb c sep then [] :: split sep s'
      else match split sep s' with
           | l :: ls => (c :: l) :: ls
           | [] => [[c]]
           end
  end.

(** [s.replace(old, new)] for a non-empty [old]: occurrences are replaced
    left to right without overlap.  [skip] counts the characters of a
    match that are still to be dropped. *)
Fixpoint replace_from (old new : str) (skip : nat) (s : str) : str :=
  match s with
  | [] => []
  | c :: s' =>
      match skip with
      | S k => replace_from old new k s'
      | O =>
          if startswith s old
          then new ++ replace_from old new (Nat.pred (List.length old)) s'
          else c :: replace_from old new O s'
      end
  end.

Definition replace (s old new : str) : str := replace_from old new O s.

(** [c.isspace()]: the characters [str.strip()] removes. *)
Definition isspace (c : char) : bool :=
  ((9 <=? c) && (c <=? 13) || (28 <=? c) && (c <=? 32)
   || (c =? 133) || (c =? 160) || (c =? 5760)
   || (8192 <=? c) && (c <=? 8202)
   || (c =? 8232) || (c =? 8233) || (c =? 8239) || (c =? 8287)
   || (c =? 12288))%N.

Fixpoint lstrip (s : str) : str :=
  match s with
  | [] => []
  | c :: s' => if isspace c then lstrip s' else s
  end.

Definition rstrip (s : str) : str := rev (lstrip (rev s)).

(** [s.strip()] *)
Definition strip (s : str) : str := rstrip (lstrip s).

End Py.

Import Py.

(** ** Log classifier: [_parse_log_and_show_dagda_warnings] *)

Inductive weekday : Type :=
| Monday | Tuesday | Wednesday | Thursday | Friday | Saturday | Sunday.

(** [datetime.datetime.now().strftime("%A")]: the full name of the weekday
    (in the C locale). *)
Definition strftime_A (d : weekday) : str :=
  match d with
  | Monday => lit "Monday"
  | Tuesday => lit "Tuesday"
  | Wednesday => lit "Wednesday"
  | Thursday => lit "Thursday"
  | Friday => lit "Friday"
  | Saturday => lit "Saturday"
  | Sunday => lit "Sunday"
  end.

(** [date_prefix = datetime.datetime.now().strftime("%A")[:3] + ' '] *)
Definition date_prefix (today : weekday) : str :=
  firstn 3 (strftime_A today) ++ lit " ".

(** One iteration of the [for line in lines] loop.  The result is the list
    of messages passed to [DagdaLogger.get_logger().warning] during the
    iteration and the value of the local variable [warning] after it. *)
Definition classify_line (prefix warning line : str) : list str * str :=
  if startswith line prefix then ([], warning)
  else
    let line := strip line in
    let '(logged, warning) :=
      if startswith line (lit "Rule ")
      then ((if truthy warning then [strip warning] else []), [])
      else ([], warning) in
    (logged, warning ++ lit " " ++ line).

Fixpoint classify_lines (prefix warning : str) (lines : list str)
  : list str * str :=
  match lines with
  | [] => ([], warning)
  | line :: rest =>
      let '(logged, warning) := classify_line prefix warning line in
      let '(logged', warning) := classify_lines prefix warning rest in
      (logged ++ logged', warning)
  end.

(** The whole function: the warnings it logs, in order.  The last value of
    [warning] is dropped when the function returns. *)
Definition parse_log_and_show_dagda_warnings
    (today : weekday) (sysdig_falco_logs : str) : list str :=
  fst (classify_lines (date_prefix today) [] (split LF sysdig_falco_logs)).


(** ** Exceptions and results *)

(** The exceptions met in the monitor.  [RecursionError] stands for the
    decoder running out of fuel, which [Json.loads] never does (see
    [loads_fuel_enough]); the interpreter's own limit on nested calls is
    left out. *)
Inductive exn : Type :=
| UnicodeDecodeError
| JSONDecodeError
| RecursionError
| KeyError (key : str)
| IndexError
| TypeError
| AttributeError
| OSError
| DagdaError (msg : str).

Inductive result (A : Type) : Type :=
| Ok (a : A)
| Raise (e : exn).

Arguments Ok {A} a.
Arguments Raise {A} e.

Definition rbind {A B : Type} (r : result A) (k : A -> result B) : result B :=
  match r with
  | Ok a => k a
  | Raise e => Raise e
  end.

Declare Scope result_scope.
Delimit Scope result_scope with result.
Notation "x <- r ;; k" := (rbind r (fun x => k))
  (at level 61, r at next level, right associativity) : result_scope.
Notation "' pat <- r ;; k" := (rbind r (fun x => match x with pat => k end))
  (at level 61, pat pattern, r at next level, right associativity)
  : result_scope.

(** ** [bytes.decode('utf-8')] *)

Module Utf8.

Definition between (lo b hi : N) : bool := ((lo <=? b) && (b <=? hi))%N.

(** A continuation byte, [10xxxxxx]. *)
Definition cont (b : N) : bool := between 128 b 191.

Definition payload (b : N) : N := (b - 128)%N.

(** Range of the second byte, which rules out overlong forms, surrogates
    and code points above U+10FFFF. *)
Definition second3 (b0 b1 : N) : bool :=
  if (b0 =? 224)%N then between 160 b1 191
  else if (b0 =? 237)%N then between 128 b1 159
  else cont b1.

Definition second4 (b0 b1 : N) : bool :=
  if (b0 =? 240)%N then between 144 b1 191
  else if (b0 =? 244)%N then between 128 b1 143
  else cont b1.

Fixpoint decode_N (bs : list N) : result str :=
  match bs with
  | [] => Ok []
  | b0 :: t0 =>
      if (b0 <? 128)%N then
        (s <- decode_N t0 ;; Ok (b0 :: s))%result
      else if between 194 b0 223 then
        match t0 with
        | b1 :: t1 =>
            if cont b1 then
              (s <- decode_N t1 ;;
               Ok (((b0 - 192) * 64 + payload b1)%N :: s))%result
            else Raise UnicodeDecodeError
        | _ => Raise UnicodeDecodeError
        end
      else if between 224 b0 239 then
        match t0 with
        | b1 :: (b2 :: t2) =>
            if second3 b0 b1 && cont b2 then
              (s <- decode_N t2 ;;
               Ok (((b0 - 224) * 4096 + payload b1 * 64 + payload b2)%N
                     :: s))%result
            else Raise UnicodeDecodeError
        | _ => Raise UnicodeDecodeError
        end
      else if between 240 b0 244 then
        match t0 with
        | b1 :: (b2 :: (b3 :: t3)) =>
            if second4 b0 b1 && cont b2 && cont b3 then
              (s <- decode_N t3 ;;
               Ok (((b0 - 240) * 262144 + payload b1 * 4096
                    + payload b2 * 64 + payload b3)%N :: s))%result
            else Raise UnicodeDecodeError
        | _ => Raise UnicodeDecodeError
        end
      else Raise UnicodeDecodeError
  end.

Definition decode (bs : bytes) : result str :=
  decode_N (List.map Byte.to_N bs).

End Utf8.

(** ** JSON values and the Python operations applied to them *)

Unset Elimination Schemes.
Inductive json : Type :=
| JNull
| JBool (b : bool)
| JNumber (lexeme : str)
| JString (s : str)
| JArray (items : list json)
| JObject (members : list (str * json)).
Set Elimination Schemes.

(** A Python [dict] with string keys, in insertion order. *)
Definition dict := list (str * json).

Fixpoint dict_get (d : dict) (key : str) : option json :=
  match d with
  | [] => None
  | (k, v) :: d' => if str_eqb k key then Some v else dict_get d' key
  end.

(** [d[key] = v]: an existing key keeps its place. *)
Fixpoint dict_set (d : dict) (key : str) (v : json) : dict :=
  match d with
  | [] => [(key, v)]
  | (k, x) :: d' =>
      if str_eqb k key then (k, v) :: d' else (k, x) :: dict_set d' key v
  end.

Definition dict_mem (d : dict) (key : str) : bool :=
  match dict_get d key with Some _ => true | None => false end.

(** [v[key]] for a string [key]. *)
Definition getitem (v : json) (key : str) : result json :=
  match v with
  | JObject d =>
      match dict_get d key with
      | Some x => Ok x
      | None => Raise (KeyError key)
      end
  | _ => Raise TypeError
  end.

(** [v == s] for a string [s]. *)
Definition eq_str (v : json) (s : str) : bool :=
  match v with
  | JString t => str_eqb t s
  | _ => false
  end.

(** [key in v] for a string [key]. *)
Definition py_in (key : str) (v : json) : result bool :=
  match v with
  | JObject d => Ok (dict_mem d key)
  | JArray items => Ok (existsb (fun x => eq_str x key) items)
  | JString s => Ok (contains s key)
  | _ => Raise TypeError
  end.

(** [s + v] for a string [s]. *)
Definition str_add (s : str) (v : json) : result str :=
  match v with
  | JString t => Ok (s ++ t)
  | _ => Raise TypeError
  end.

(** [v += s] for a string [s]: a string is concatenated, a list is
    extended with the characters of [s]. *)
Definition iadd_str (v : json) (s : str) : result json :=
  match v with
  | JString t => Ok (JString (t ++ s))
  | JArray items => Ok (JArray (items ++ List.map (fun c => JString [c]) s))
  | _ => Raise TypeError
  end.

(** ** [json.loads]

    The decoder of the standard library, as far as the monitor can observe
    it: which texts are rejected with [JSONDecodeError], and which value the
    others denote.  Numbers are kept as their lexemes (the monitor never
    computes with them).  [fuel] bounds the number of nested calls; a value
    and each element of a container take one call each, so twice the length
    of the text is enough (see [loads_fuel_enough]). *)

Module Json.

Definition is_ws (c : char) : bool :=
  ((c =? 32) || (c =? 9) || (c =? 10) || (c =? 13))%N.

Fixpoint skip_ws (s : str) : str :=
  match s with
  | c :: s' => if is_ws c then skip_ws s' else s
  | [] => []
  end.

Definition is_digit (c : char) : bool := Utf8.between 48 c 57.

Definition hex_digit (c : char) : option N :=
  if Utf8.between 48 c 57 then Some (c - 48)%N
  else if Utf8.between 97 c 102 then Some (c - 87)%N
  else if Utf8.between 65 c 70 then Some (c - 55)%N
  else None.

Definition hex4 (a b c d : char) : option N :=
  match hex_digit a, hex_digit b, hex_digit c, hex_digit d with
  | Some x, Some y, Some z, Some w =>
      Some (((x * 16 + y) * 16 + z) * 16 + w)%N
  | _, _, _, _ => None
  end.

(** The character a one-letter backslash escape stands for. *)
Definition backslash (c : char) : option char :=
  if (c =? 34)%N then Some 34%N          (* quote *)
  else if (c =? 92)%N then Some 92%N     (* backslash *)
  else if (c =? 47)%N then Some 47%N     (* slash *)
  else if (c =? 98)%N then Some 8%N      (* backspace *)
  else if (c =? 102)%N then Some 12%N    (* form feed *)
  else if (c =? 110)%N then Some 10%N    (* newline *)
  else if (c =? 114)%N then Some 13%N    (* carriage return *)
  else if (c =? 116)%N then Some 9%N     (* tab *)
  else None.

Definition is_high_surrogate (u : N) : bool := Utf8.between 55296 u 56319.
Definition is_low_surrogate (u : N) : bool := Utf8.between 56320 u 57343.
Definition join_surrogates (hi lo : N) : N :=
  (65536 + ((hi - 55296) * 1024 + (lo - 56320)))%N.

(** [scanstring]: the text after an opening quote, up to and including
    the closing quote.  Returns the string and the text that follows. *)
Fixpoint scanstring (s : str) : option (str * str) :=
  let prepend (c : char) (r : option (str * str)) :=
    match r with
    | Some (chunk, rest) => Some (c :: chunk, rest)
    | None => None
    end in
  match s with
  | [] => None                                  (* unterminated *)
  | c :: t =>
      if (c =? 34)%N then Some ([], t)
      else if (c =? 92)%N then
        match t with
        | [] => None
        | e :: t1 =>
            if (e =? 117)%N then
              match t1 with
              | h1 :: (h2 :: (h3 :: (h4 :: t2))) =>
                  match hex4 h1 h2 h3 h4 with
                  | None => None
                  | Some u =>
                      match t2 with
                      | b :: (v :: (l1 :: (l2 :: (l3 :: (l4 :: t3))))) =>
                          if is_high_surrogate u && (b =? 92)%N
                             && (v =? 117)%N
                          then
                            match hex4 l1 l2 l3 l4 with
                            | None => None
                            | Some u2 =>
                                if is_low_surrogate u2
                                then prepend (join_surrogates u u2)
                                             (scanstring t3)
                                else prepend u (scanstring t2)
                            end
                          else prepend u (scanstring t2)
                      | _ => prepend u (scanstring t2)
                      end
                  end
              | _ => None
              end
            else
              match backslash e with
              | Some c' => prepend c' (scanstring t1)
              | None => None
              end
        end
      else if (c <=? 31)%N then None            (* control character *)
      else prepend c (scanstring t)
  end.

Fixpoint span_digits (s : str) : str * str :=
  match s with
  | c :: s' =>
      if is_digit c
      then let '(ds, rest) := span_digits s' in (c :: ds, rest)
      else ([], s)
  | [] => ([], [])
  end.

(** The optional fraction: a dot followed by at least one digit. *)
Definition match_fraction (s : str) : str * str :=
  match s with
  | dot :: (d :: s') =>
      if (dot =? 46)%N && is_digit d
      then let '(ds, rest) := span_digits s' in (dot :: d :: ds, rest)
      else ([], s)
  | _ => ([], s)
  end.

(** The optional exponent: [e] or [E], an optional sign, at least one
    digit; otherwise nothing is consumed. *)
Definition match_exponent (s : str) : str * str :=
  match s with
  | e :: s1 =>
      if (e =? 101)%N || (e =? 69)%N then
        let '(sign, s2) :=
          match s1 with
          | c :: s2 =>
              if (c =? 45)%N || (c =? 43)%N then ([c], s2) else ([], s1)
          | [] => ([], s1)
          end in
        match span_digits s2 with
        | ([], _) => ([], s)
        | (ds, rest) => (e :: sign ++ ds, rest)
        end
      else ([], s)
  | [] => ([], s)
  end.

(** [_match_number]: the lexeme of a number and the text that follows. *)
Definition match_number (s : str) : option (str * str) :=
  let '(sign, s1) :=
    match s with
    | c :: s' => if (c =? 45)%N then ([c], s') else ([], s)
    | [] => ([], s)
    end in
  match s1 with
  | [] => None
  | d :: s2 =>
      let int_part :=
        if Utf8.between 49 d 57
        then let '(ds, rest) := span_digits s2 in Some (d :: ds, rest)
        else if (d =? 48)%N then Some ([d], s2)
        else None in
      match int_part with
      | None => None
      | Some (ds, rest) =>
          let '(frac, rest) := match_fraction rest in
          let '(expo, rest) := match_exponent rest in
          Some (sign ++ ds ++ frac ++ expo, rest)
      end
  end.

(** A literal word at the head of the text. *)
Definition word (w : str) (s : str) : option str :=
  if startswith s w then Some (skipn (List.length w) s) else None.

(** [scan_once] and the loops of [JSONArray] and [JSONObject]. *)
Fixpoint scan_once (fuel : nat) (s : str) {struct fuel}
  : result (json * str) :=
  match fuel with
  | O => Raise RecursionError
  | S fuel =>
      match s with
      | [] => Raise JSONDecodeError
      | c :: t =>
          if (c =? 34)%N then
            match scanstring t with
            | Some (x, rest) => Ok (JString x, rest)
            | None => Raise JSONDecodeError
            end
          else if (c =? 123)%N then
            match skip_ws t with
            | c' :: t' =>
                if (c' =? 125)%N then Ok (JObject [], t')
                else object_loop fuel (c' :: t') []
            | [] => Raise JSONDecodeError
            end
          else if (c =? 91)%N then
            match skip_ws t with
            | c' :: t' =>
                if (c' =? 93)%N then Ok (JArray [], t')
                else array_loop fuel (c' :: t') []
            | [] => Raise JSONDecodeError
            end
          else
            match word (lit "null") s, word (lit "true") s,
                  word (lit "false") s, word (lit "NaN") s,
                  word (lit "Infinity") s, word (lit "-Infinity") s with
            | Some rest, _, _, _, _, _ => Ok (JNull, rest)
            | _, Some rest, _, _, _, _ => Ok (JBool true, rest)
            | _, _, Some rest, _, _, _ => Ok (JBool false, rest)
            | _, _, _, Some rest, _, _ => Ok (JNumber (lit "NaN"), rest)
            | _, _, _, _, Some rest, _ =>
                Ok (JNumber (lit "Infinity"), rest)
            | _, _, _, _, _, Some rest =>
                Ok (JNumber (lit "-Infinity"), rest)
            | _, _, _, _, _, _ =>
                match match_number s with
                | Some (lexeme, rest) => Ok (JNumber lexeme, rest)
                | None => Raise JSONDecodeError
                end
            end
      end
  end
with array_loop (fuel : nat) (s : str) (items : list json) {struct fuel}
  : result (json * str) :=
  match fuel with
  | O => Raise RecursionError
  | S fuel =>
      ('(v, rest) <- scan_once fuel s ;;
       match skip_ws rest with
       | c :: t =>
           if (c =? 93)%N then Ok (JArray (items ++ [v]), t)
           else if (c =? 44)%N
           then array_loop fuel (skip_ws t) (items ++ [v])
           else Raise JSONDecodeError
       | [] => Raise JSONDecodeError
       end)%result
  end
with object_loop (fuel : nat) (s : str) (members : dict) {struct fuel}
  : result (json * str) :=
  match fuel with
  | O => Raise RecursionError
  | S fuel =>
      match s with
      | q :: t =>
          if (q =? 34)%N then
            match scanstring t with
            | None => Raise JSONDecodeError
            | Some (key, rest) =>
                match skip_ws rest with
                | colon :: rest =>
                    if (colon =? 58)%N then
                      ('(v, rest) <- scan_once fuel (skip_ws rest) ;;
                       let members := dict_set members key v in
                       match skip_ws rest with
                       | c :: t' =>
                           if (c =? 125)%N then Ok (JObject members, t')
                           else if (c =? 44)%N
                           then object_loop fuel (skip_ws t') members
                           else Raise JSONDecodeError
                       | [] => Raise JSONDecodeError
                       end)%result
                    else Raise JSONDecodeError
                | [] => Raise JSONDecodeError
                end
            end
          else Raise JSONDecodeError
      | [] => Raise JSONDecodeError
      end
  end.

(** [json.loads(s)] for a [str]: a byte order mark is refused, white
    space around the value is skipped, anything left over is an error. *)
Definition loads (s : str) : result json :=
  if startswith s [65279%N] then Raise JSONDecodeError
  else
    ('(v, rest) <- scan_once (S (2 * List.length s)) (skip_ws s) ;;
     match skip_ws rest with
     | [] => Ok v
     | _ :: _ => Raise JSONDecodeError
     end)%result.

End Json.

(** ** The tailing loop of [run]: one line, one cycle *)

Open Scope result_scope.

(** The body of the [try] block: the event built from a record whose
    container id is [container_id].  Building stops at the first exception. *)
Definition build_falco_event (json_data container_id : json) : result dict :=
  let falco_event : dict := [] in
  let falco_event := dict_set falco_event (lit "container_id") container_id in
  output_fields <- getitem json_data (lit "output_fields") ;;
  repository <- getitem output_fields (lit "container.image.repository") ;;
  let falco_event := dict_set falco_event (lit "image_name") repository in
  output_fields <- getitem json_data (lit "output_fields") ;;
  has_tag <- py_in (lit "container.image.tag") output_fields ;;
  falco_event <-
    (if has_tag : bool then
       image_name <- getitem (JObject falco_event) (lit "image_name") ;;
       output_fields <- getitem json_data (lit "output_fields") ;;
       tag <- getitem output_fields (lit "container.image.tag") ;;
       suffix <- str_add (lit ":") tag ;;
       image_name <- iadd_str image_name suffix ;;
       Ok (dict_set falco_event (lit "image_name") image_name)
     else Ok falco_event) ;;
  output <- getitem json_data (lit "output") ;;
  let falco_event := dict_set falco_event (lit "output") output in
  priority <- getitem json_data (lit "priority") ;;
  let falco_event := dict_set falco_event (lit "priority") priority in
  rule <- getitem json_data (lit "rule") ;;
  let falco_event := dict_set falco_event (lit "rule") rule in
  time <- getitem json_data (lit "time") ;;
  let falco_event := dict_set falco_event (lit "time") time in
  Ok falco_event.

(** The body of [for line in content]: [sysdig_falco_events] before and
    after the iteration, or the exception that leaves the loop. *)
Definition process_line (sysdig_falco_events : list dict) (line : bytes)
  : result (list dict) :=
  line <- Utf8.decode line ;;
  let line := replace line [LF] [] in
  json_data <- Json.loads line ;;
  output_fields <- getitem json_data (lit "output_fields") ;;
  container_id <- getitem output_fields (lit "container.id") ;;
  if negb (eq_str container_id (lit "host")) then
    match build_falco_event json_data container_id with
    | Ok falco_event => Ok (sysdig_falco_events ++ [falco_event])
    | Raise IndexError => Ok sysdig_falco_events
    | Raise (KeyError _) => Ok sysdig_falco_events
    | Raise e => Raise e
    end
  else Ok sysdig_falco_events.

Fixpoint process_lines (sysdig_falco_events : list dict)
    (content : list bytes) : result (list dict) :=
  match content with
  | [] => Ok sysdig_falco_events
  | line :: content' =>
      sysdig_falco_events <- process_line sysdig_falco_events line ;;
      process_lines sysdig_falco_events content'
  end.

(** [readlines()]: the rest of the stream cut after every newline; a last
    line without newline is returned as it is. *)
Fixpoint readlines {A : Type} (is_newline : A -> bool) (s : list A)
  : list (list A) :=
  match s with
  | [] => []
  | c :: s' =>
      if is_newline c then [c] :: readlines is_newline s'
      else match readlines is_newline s' with
           | l :: ls => (c :: l) :: ls
           | [] => [[c]]
           end
  end.

Definition is_LF_byte (b : byte) : bool := Byte.eqb b x0a.

(** What one pass of the [while True] body computes from the content of the
    output file at that moment: the new [last_file_position] and
    [sysdig_falco_events].  [fbuf.seek] positions the stream (also beyond
    the end of the file), [fbuf.readlines] reads to the end of the file, and
    [fbuf.tell] is the position reached: the offset sought plus the bytes
    read. *)
Definition tail_cycle (file : bytes) (last_file_position : nat)
  : result (nat * list dict) :=
  let unread := skipn last_file_position file in
  let content := readlines is_LF_byte unread in
  sysdig_falco_events <- process_lines [] content ;;
  let last_file_position :=
    (last_file_position + List.length (List.concat content))%nat in
  Ok (last_file_position, sysdig_falco_events).

(** ** The collaborators: a trace of calls and a world that answers them *)

Inductive action : Type :=
| CopyFile (src dst : str)
| OpenFile (path : str)
| IsFile (path : str)
| Uname
| Now
| DockerGetClient
| DockerContainerIdsByImageName (image : str)
| SubprocessCall (argv : list str)
| LoggerWarning (message : str)
| DockerPull (image tag : str)
| DockerStop (container_id : str)
| DockerRemoveContainer (container_id : str)
| DockerCreateContainer (image : str) (entrypoint : option str)
    (volumes binds : list str) (privileged : bool)
| DockerStart (container_id : str)
| DockerLogs (container_id : str) (stdout stderr follow : bool)
| DeleteFalcoEventsCollection
| BulkInsertSysdigFalcoEvents (events : list dict)
| Sleep (seconds : nat).

Record World : Type := {
  (** the text of [/etc/os-release], or the exception [open] raises *)
  etc_os_release : result str;
  (** [os.uname().release] *)
  uname_release : str;
  (** [os.path.isfile] *)
  isfile : str -> bool;
  (** [subprocess.call]: the return code, or the exception raised when the
      program cannot be run *)
  subprocess_call : list str -> result Z;
  (** [get_docker_client() is not None] *)
  docker_client : bool;
  (** [get_docker_container_ids_by_image_name] *)
  docker_container_ids_by_image_name : str -> list str;
  (** the id [create_container] returns *)
  created_container_id : str;
  (** [docker_logs] *)
  docker_logs : str -> str;
  (** the weekday of [datetime.datetime.now()] *)
  today : weekday;
  (** the content of a file when the tailing loop reads it in its n-th
      pass *)
  file_at_cycle : str -> nat -> bytes
}.

(** The instance attributes, the class attribute [_falco_output_filename],
    the flag held by [InternalServer], and the calls made so far. *)
Record State : Type := {
  running_container_id : str;
  falco_rules : str;
  falco_output_filename : str;
  external_falco : bool;
  trace : list action
}.

Close Scope result_scope.

(** A computation of the monitor: it reads and updates the state and
    returns a value or raises. *)
Definition M (A : Type) : Type := State -> result A * State.

Definition ret {A : Type} (a : A) : M A := fun st => (Ok a, st).

Definition raise {A : Type} (e : exn) : M A := fun st => (Raise e, st).

Definition bind {A B : Type} (m : M A) (k : A -> M B) : M B :=
  fun st =>
    match m st with
    | (Ok a, st') => k a st'
    | (Raise e, st') => (Raise e, st')
    end.

Definition lift {A : Type} (r : result A) : M A := fun st => (r, st).

Declare Scope monitor_scope.
Delimit Scope monitor_scope with monitor.
Notation "x <- m ;; k" := (bind m (fun x => k))
  (at level 61, m at next level, right associativity) : monitor_scope.
Notation "m ;; k" := (bind m (fun _ => k))
  (at level 61, right associativity) : monitor_scope.

(** The state after further calls. *)
Definition after_calls (st : State) (calls : list action) : State :=
  {| running_container_id := running_container_id st;
     falco_rules := falco_rules st;
     falco_output_filename := falco_output_filename st;
     external_falco := external_falco st;
     trace := trace st ++ calls |}.

(** A call to a collaborator is added to the trace. *)
Definition call (a : action) : M unit :=
  fun st => (Ok tt, after_calls st [a]).

Definition get {A : Type} (field : State -> A) : M A :=
  fun st => (Ok (field st), st).

Definition set_running_container_id (id : str) : M unit :=
  fun st =>
    (Ok tt,
     {| running_container_id := id;
        falco_rules := falco_rules st;
        falco_output_filename := falco_output_filename st;
        external_falco := external_falco st;
        trace := trace st |}).

Open Scope monitor_scope.

(** ** [SysdigFalcoMonitor] *)

Definition _tmp_directory : str := lit "/tmp".
Definition _falco_custom_rules_filename : str :=
  _tmp_directory ++ lit "/custom_falco_rules.yaml".

(** The class attribute [_falco_output_filename] as the class body sets it. *)
Definition default_falco_output_filename : str :=
  _tmp_directory ++ lit "/falco_output.json".

(** [__init__].  [None] arguments are [None] in Python. *)
Definition init (falco_rules_filename external_falco_output_filename
                 : option str) : M unit :=
  set_running_container_id [] ;;
  match falco_rules_filename with
  | None => fun st =>
      (Ok tt,
       {| running_container_id := running_container_id st;
          falco_rules := [];
          falco_output_filename := falco_output_filename st;
          external_falco := external_falco st;
          trace := trace st |})
  | Some filename =>
      call (CopyFile filename _falco_custom_rules_filename) ;;
      fun st =>
        (Ok tt,
         {| running_container_id := running_container_id st;
            falco_rules :=
              lit " -o rules_file=/host" ++ _falco_custom_rules_filename;
            falco_output_filename := falco_output_filename st;
            external_falco := external_falco st;
            trace := trace st |})
  end ;;
  match external_falco_output_filename with
  | Some filename => fun st =>
      (Ok tt,
       {| running_container_id := running_container_id st;
          falco_rules := falco_rules st;
          falco_output_filename := filename;
          external_falco := true;
          trace := trace st |})
  | None => ret tt
  end.

(** [InternalServer.is_external_falco()] *)
Definition is_external_falco : M bool := get external_falco.

(** The loop of [_get_linux_distro] over the lines of the file. *)
Fixpoint first_NAME (lines : list str) : option str :=
  match lines with
  | [] => None
  | line :: rest =>
      if startswith line (lit "NAME=") then
        Some (replace (replace (replace (replace line (lit "NAME=") [])
                                        [LF] [])
                               [39%N] [])
                      [34%N] [])
      else first_NAME rest
  end.

(** [_get_linux_distro]: [None] when no line starts with [NAME=]. *)
Definition _get_linux_distro (w : World) : M (option str) :=
  call (OpenFile (lit "/etc/os-release")) ;;
  text <- lift (etc_os_release w) ;;
  ret (first_NAME (readlines (N.eqb LF) text)).

(** [sub in linux_distro]; [linux_distro] may be [None]. *)
Definition in_distro (sub : str) (linux_distro : option str) : M bool :=
  match linux_distro with
  | Some name => ret (contains name sub)
  | None => raise TypeError
  end.

(** [a or b], [b] evaluated only when [a] is false. *)
Definition or_else (a b : M bool) : M bool :=
  x <- a ;; if x : bool then ret true else b.

Definition falco_image : str := lit "falcosecurity/falco:0.29.0".

(** The volumes and binds [_start_container] passes to the driver. *)
Definition falco_volumes : list str :=
  [lit "/host/var/run/docker.sock"; lit "/host/dev"; lit "/host/proc";
   lit "/host/boot"; lit "/host/lib/modules"; lit "/host/usr";
   lit "/host/etc"; lit "/host" ++ _tmp_directory].

Definition falco_binds : list str :=
  [lit "/var/run/docker.sock:/host/var/run/docker.sock";
   lit "/dev:/host/dev"; lit "/proc:/host/proc:ro";
   lit "/boot:/host/boot:ro"; lit "/lib/modules:/host/lib/modules:ro";
   lit "/usr:/host/usr:ro"; lit "/etc:/host/etc:ro";
   _tmp_directory ++ lit ":/host" ++ _tmp_directory ++ lit ":rw"].

(** [_start_container].  The host configuration is an argument of
    [create_container], so the Docker client is fetched first; without a
    client ([None]) the attribute access fails. *)
Definition _start_container (w : World) (entrypoint : option str) : M str :=
  call DockerGetClient ;;
  if docker_client w then
    call (DockerCreateContainer falco_image entrypoint
            falco_volumes falco_binds true) ;;
    let container_id := created_container_id w in
    call (DockerStart container_id) ;;
    ret container_id
  else raise AttributeError.

Definition device_error : str :=
  lit "Runtime error: error opening device /host/dev/sysdig0".

Fixpoint stop_and_remove (container_ids : list str) : M unit :=
  match container_ids with
  | [] => ret tt
  | container_id :: rest =>
      call (DockerStop container_id) ;;
      call (DockerRemoveContainer container_id) ;;
      stop_and_remove rest
  end.

(** [pre_check], lines 62 to 84: the distribution, the kernel release and
    the kernel headers. *)
Definition check_requirements (w : World) : M unit :=
  linux_distro <- _get_linux_distro w ;;
  call Uname ;;
  let uname_r := uname_release w in
  call (IsFile (lit "/.dockerenv")) ;;
  if negb (isfile w (lit "/.dockerenv")) then
    rpm_family <-
      or_else (in_distro (lit "Red Hat") linux_distro)
        (or_else (in_distro (lit "CentOS") linux_distro)
           (or_else (in_distro (lit "Fedora") linux_distro)
              (in_distro (lit "openSUSE") linux_distro))) ;;
    return_code <-
      (if rpm_family : bool then
         let argv := [lit "rpm"; lit "-q"; lit "kernel-devel-" ++ uname_r] in
         call (SubprocessCall argv) ;; lift (subprocess_call w argv)
       else
         deb_family <-
           or_else (in_distro (lit "Debian") linux_distro)
                   (in_distro (lit "Ubuntu") linux_distro) ;;
         if deb_family : bool then
           let argv :=
             [lit "dpkg"; lit "-l"; lit "linux-headers-" ++ uname_r] in
           call (SubprocessCall argv) ;; lift (subprocess_call w argv)
         else
           raise (DagdaError (lit "Linux distribution not supported yet."))) ;;
    if negb (Z.eqb return_code 0) then
      raise (DagdaError
        (lit "The kernel headers are not installed in the host operating system."))
    else ret tt
  else
    call (LoggerWarning
      (lit "I'm running inside a docker container, so I can't check if the kernel headers are installed in the host operating system. Please, review it!!")).

(** [pre_check], lines 86 to 101: the Docker driver, the image, the
    containers left over and the events left over. *)
Definition prepare_docker (w : World) : M unit :=
  call DockerGetClient ;;
  (if negb (docker_client w) then
     raise (DagdaError
              (lit "Error while fetching Docker server API version."))
   else ret tt) ;;
  call (DockerPull (lit "falcosecurity/falco") (lit "0.29.0")) ;;
  call (DockerContainerIdsByImageName falco_image) ;;
  let container_ids := docker_container_ids_by_image_name w falco_image in
  (if (0 <? List.length container_ids)%nat
   then stop_and_remove container_ids
   else ret tt) ;;
  call DeleteFalcoEventsCollection.

(** [pre_check], lines 103 to 113: a container without custom entrypoint
    is started and its logs are searched for the device error. *)
Definition probe_device (w : World) : M unit :=
  container_id <- _start_container w None ;;
  set_running_container_id container_id ;;
  call (Sleep 30) ;;
  id <- get running_container_id ;;
  call (DockerLogs id true true false) ;;
  let logs := docker_logs w id in
  (if negb (contains logs device_error) then
     id <- get running_container_id ;;
     call (DockerStop id)
   else
     raise (DagdaError
              (lit "Runtime error opening device /host/dev/sysdig0."))) ;;
  id <- get running_container_id ;;
  call (DockerRemoveContainer id).

(** [pre_check] *)
Definition pre_check (w : World) : M unit :=
  external <- is_external_falco ;;
  if negb external then
    check_requirements w ;;
    prepare_docker w ;;
    probe_device w
  else ret tt.

(** [_parse_log_and_show_dagda_warnings] with its calls to the logger. *)
Fixpoint log_warnings (messages : list str) : M unit :=
  match messages with
  | [] => ret tt
  | message :: rest => call (LoggerWarning message) ;; log_warnings rest
  end.

Definition _parse_log_and_show_dagda_warnings (w : World)
    (sysdig_falco_logs : str) : M unit :=
  call Now ;;
  log_warnings (parse_log_and_show_dagda_warnings (today w) sysdig_falco_logs).

(** The [while True] loop of [run], observed for [cycles] passes.
    [cycle] numbers the pass; the result is [last_file_position] after the
    last pass observed. *)
Fixpoint tail_loop (w : World) (path : str) (cycle cycles : nat)
    (last_file_position : nat) : M nat :=
  match cycles with
  | O => ret last_file_position
  | S cycles' =>
      r <- lift (tail_cycle (file_at_cycle w path cycle) last_file_position) ;;
      let '(last_file_position, sysdig_falco_events) := r in
      (if (0 <? List.length sysdig_falco_events)%nat
       then call (BulkInsertSysdigFalcoEvents sysdig_falco_events)
       else ret tt) ;;
      call (Sleep 2) ;;
      tail_loop w path (S cycle) cycles' last_file_position
  end.

(** [run], observed until the tailing loop has made [cycles] passes. *)
Definition run (w : World) (cycles : nat) : M nat :=
  external <- is_external_falco ;;
  (if negb external then
     filename <- get falco_output_filename ;;
     rules <- get falco_rules ;;
     container_id <-
       _start_container w
         (Some (lit "falco -pc -o json_output=true -o file_output.enabled=true "
                ++ lit "-o file_output.filename=/host" ++ filename ++ rules)) ;;
     set_running_container_id container_id ;;
     call (Sleep 3)
   else ret tt) ;;
  filename <- get falco_output_filename ;;
  call (IsFile filename) ;;
  missing <-
    (if negb (isfile w filename) then ret true
     else
       external <- is_external_falco ;;
       if negb external then
         call (DockerContainerIdsByImageName falco_image) ;;
         ret (Nat.eqb
                (List.length (docker_container_ids_by_image_name w falco_image))
                0)
       else ret false) ;;
  (if missing : bool then
     raise (DagdaError (lit "Falcosecurity/falco output file not found."))
   else ret tt) ;;
  external <- is_external_falco ;;
  (if negb external then
     id <- get running_container_id ;;
     call (DockerLogs id true true false) ;;
     let sysdig_falco_logs := docker_logs w id in
     if contains sysdig_falco_logs (lit "Rule ")
     then _parse_log_and_show_dagda_warnings w sysdig_falco_logs
     else ret tt
   else ret tt) ;;
  filename <- get falco_output_filename ;;
  call (OpenFile filename) ;;
  tail_loop w filename 0 cycles 0.

Close Scope monitor_scope.

(** [get_running_container_id] *)
Definition get_running_container_id : M str := get running_container_id.

(** ** Notions used to state the properties *)

(** No white space at either end. *)
Definition trimmed (s : str) : Prop :=
  (forall c, hd_error s = Some c -> isspace c = false) /\
  (forall c, hd_error (rev s) = Some c -> isspace c = false).

(** A line that, after trimming, begins with the token [Rule ]. *)
Definition starts_rule (line : str) : bool :=
  startswith (strip line) (lit "Rule ").

(** The trimmed lines at which the loop starts a new warning, in the order
    of the text. *)
Fixpoint rule_lines (prefix : str) (lines : list str) : list str :=
  match lines with
  | [] => []
  | line :: rest =>
      if negb (startswith line prefix) && starts_rule line
      then strip line :: rule_lines prefix rest
      else rule_lines prefix rest
  end.

(** [w] begins with [rule]. *)
Definition begins_with (rule w : str) : Prop := startswith w rule = true.

(** Text written in the source of this file: the newline is spelt [|]. *)
Definition text (s : string) : str :=
  List.map (fun c => if N.eqb c 124 then LF else c) (lit s).

(** A line of the output file written in the source of this file: the
    double quote is spelt ['], and the bytes are those of the text. *)
Definition json_line (s : string) : bytes :=
  List.map (fun b => if Byte.eqb b x27 then x22 else b) (list_byte_of_string s).

(** The event a well-formed record stands for. *)
Definition falco_event_of
    (container_id image_name output priority rule time : json) : dict :=
  [(lit "container_id", container_id); (lit "image_name", image_name);
   (lit "output", output); (lit "priority", priority);
   (lit "rule", rule); (lit "time", time)].

(** Repository and tag joined by a colon when there is a tag. *)
Definition image_name_of (repository : str) (tag : option json) : json :=
  match tag with
  | Some (JString t) => JString (repository ++ lit ":" ++ t)
  | _ => JString repository
  end.

(** The fields the [try] block reads are all there. *)
Definition has_event_fields (json_data output_fields : dict) : bool :=
  dict_mem output_fields (lit "container.image.repository")
  && dict_mem json_data (lit "output")
  && dict_mem json_data (lit "priority")
  && dict_mem json_data (lit "rule")
  && dict_mem json_data (lit "time").

(** The value of a field, when present, is a string. *)
Definition string_if_present (d : dict) (key : str) : Prop :=
  forall v, dict_get d key = Some v -> exists s, v = JString s.

(** The same spelling for a decoded line. *)
Definition json_text (s : string) : str :=
  List.map (fun c => if N.eqb c 39 then 34%N else c) (lit s).

(** The two records of the scenario: a container event and a host event. *)
Definition nginx_record : string :=
  "{'output_fields':{'container.id':'abc','container.image.repository':'nginx','container.image.tag':'1.21'},'output':'X','priority':'WARNING','rule':'R1','time':'t1'}".

Definition host_record : string :=
  "{'output_fields':{'container.id':'host','container.image.repository':'nginx'},'output':'Y','priority':'NOTICE','rule':'R2','time':'t2'}".

(** A record of an older format, without [time]. *)
Definition old_record : string :=
  "{'output_fields':{'container.id':'abc','container.image.repository':'nginx'},'output':'X','priority':'WARNING','rule':'R1'}".

(** A record the writer has not finished. *)
Definition truncated_record : string :=
  "{'output_fields':{'container.id':'abc','container.image.repo".

(** A record without [time] whose tag is a number. *)
Definition numeric_tag_record : string :=
  "{'output_fields':{'container.id':'abc','container.image.repository':'nginx','container.image.tag':1.21},'output':'X','priority':'WARNING','rule':'R1'}".

(** A record without [output_fields]. *)
Definition bare_record : string :=
  "{'output':'X','priority':'WARNING','rule':'R1','time':'t1'}".

Definition nginx_output_fields : dict :=
  [(lit "container.id", JString (lit "abc"));
   (lit "container.image.repository", JString (lit "nginx"));
   (lit "container.image.tag", JString (lit "1.21"))].

Definition nginx_json : dict :=
  [(lit "output_fields", JObject nginx_output_fields);
   (lit "output", JString (lit "X"));
   (lit "priority", JString (lit "WARNING"));
   (lit "rule", JString (lit "R1"));
   (lit "time", JString (lit "t1"))].

Definition nginx_event : dict :=
  [(lit "container_id", JString (lit "abc"));
   (lit "image_name", JString (lit "nginx:1.21"));
   (lit "output", JString (lit "X"));
   (lit "priority", JString (lit "WARNING"));
   (lit "rule", JString (lit "R1"));
   (lit "time", JString (lit "t1"))].

Definition old_output_fields : dict :=
  [(lit "container.id", JString (lit "abc"));
   (lit "container.image.repository", JString (lit "nginx"))].

Definition old_json : dict :=
  [(lit "output_fields", JObject old_output_fields);
   (lit "output", JString (lit "X"));
   (lit "priority", JString (lit "WARNING"));
   (lit "rule", JString (lit "R1"))].

(** Calls to the Docker driver. *)
Definition is_docker_call (a : action) : bool :=
  match a with
  | DockerGetClient | DockerContainerIdsByImageName _ | DockerPull _ _
  | DockerStop _ | DockerRemoveContainer _
  | DockerCreateContainer _ _ _ _ _ | DockerStart _ | DockerLogs _ _ _ _ =>
      true
  | _ => false
  end.

(** The calls the tailing loop makes. *)
Definition is_tail_call (a : action) : bool :=
  match a with
  | BulkInsertSysdigFalcoEvents _ | Sleep _ => true
  | _ => false
  end.

(** The calls of one pass of the loop that found [events]. *)
Definition pass_calls (events : list dict) : list action :=
  (if (0 <? List.length events)%nat
   then [BulkInsertSysdigFalcoEvents events] else [])
  ++ [Sleep 2].

(** The scenario of two passes: the output file holds a container event
    and a host event, and nothing is appended before the second pass. *)
Definition scenario_file : bytes :=
  json_line nginx_record ++ [x0a] ++ json_line host_record ++ [x0a].

(** A host described by the [NAME] in [/etc/os-release], the return code
    of the package query, whether [/.dockerenv] exists, and the logs of
    the Falco container.  The output file is the one of the scenario. *)
Definition host (name : string) (return_code : Z) (dockerenv : bool)
    (logs : str) : World :=
  {| etc_os_release :=
       Ok (text "PRETTY_NAME='GNU/Linux'|NAME='" ++ text name
             ++ text "'|VERSION_ID='22.04'|");
     uname_release := lit "5.15.0-91-generic";
     isfile := fun path =>
       if str_eqb path (lit "/.dockerenv") then dockerenv else true;
     subprocess_call := fun _ => Ok return_code;
     docker_client := true;
     docker_container_ids_by_image_name := fun _ => [lit "0ld"];
     created_container_id := lit "c0ffee";
     docker_logs := fun _ => logs;
     today := Monday;
     file_at_cycle := fun _ _ => scenario_file |}.

(** The class before any monitor is built. *)
Definition class_state : State :=
  {| running_container_id := [];
     falco_rules := [];
     falco_output_filename := default_falco_output_filename;
     external_falco := false;
     trace := [] |}.

(** A monitor that runs Falco itself, and one that reads the output of a
    Falco run by someone else. *)
Definition self_managed : State := snd (init None None class_state).

Definition externally_managed : State :=
  snd (init None (Some (lit "/var/log/falco.json")) class_state).

(** The calls of [pre_check]'s probe up to the reading of the logs. *)
Definition probe_calls (container_id : str) : list action :=
  [DockerGetClient;
   DockerCreateContainer falco_image None falco_volumes falco_binds true;
   DockerStart container_id;
   Sleep 30;
   DockerLogs container_id true true false].

(** ** Notions used for the further properties *)


(** The characters [_get_linux_distro] leaves in a name: all but the
    newline and the two quotes. *)
Definition name_char (c : char) : bool :=
  negb (N.eqb c LF) && (negb (N.eqb c 39) && negb (N.eqb c 34)).

(** The calls [pre_check] starts with: the distribution, the kernel
    release and the test for a container. *)
Definition requirement_calls : list action :=
  [OpenFile (lit "/etc/os-release"); Uname; IsFile (lit "/.dockerenv")].

(** The calls that stop and remove the containers found. *)
Definition cleanup_calls (container_ids : list str) : list action :=
  flat_map (fun id => [DockerStop id; DockerRemoveContainer id]) container_ids.

(** The warning [pre_check] logs inside a container. *)
Definition docker_warning : str :=
  lit "I'm running inside a docker container, so I can't check if the kernel headers are installed in the host operating system. Please, review it!!".

(** The error [pre_check] raises for missing kernel headers. *)
Definition headers_error : exn :=
  DagdaError
    (lit "The kernel headers are not installed in the host operating system.").

(** A world given by what each collaborator answers: the text of
    [/etc/os-release], the outcome of the package query, whether
    [/.dockerenv] and the output file exist, whether there is a Docker
    client, the containers of the Falco image, the logs of a container and
    the content of the output file at each pass. *)
Definition machine (os_release : result str) (return_code : result Z)
    (dockerenv output_file client : bool) (container_ids : list str)
    (logs : str) (file : nat -> bytes) : World :=
  {| etc_os_release := os_release;
     uname_release := lit "5.14.0-362.el9.x86_64";
     isfile := fun path =>
       if str_eqb path (lit "/.dockerenv") then dockerenv else output_file;
     subprocess_call := fun _ => return_code;
     docker_client := client;
     docker_container_ids_by_image_name := fun _ => container_ids;
     created_container_id := lit "c0ffee";
     docker_logs := fun _ => logs;
     today := Monday;
     file_at_cycle := fun _ => file |}.

(** The calls some action list holds that reach beyond the host: the
    Docker driver and the event store. *)
Definition is_host_call (a : action) : bool :=
  match a with
  | OpenFile _ | IsFile _ | Uname | SubprocessCall _ | LoggerWarning _ => true
  | _ => false
  end.

(** The entry point [run] starts Falco with. *)
Definition falco_command (st : State) : str :=
  lit "falco -pc -o json_output=true -o file_output.enabled=true "
  ++ lit "-o file_output.filename=/host" ++ falco_output_filename st
  ++ falco_rules st.

(** The calls with which [run] starts the Falco container. *)
Definition start_calls (w : World) (st : State) : list action :=
  [DockerGetClient;
   DockerCreateContainer falco_image (Some (falco_command st))
     falco_volumes falco_binds true;
   DockerStart (created_container_id w);
   Sleep 3].

(** The monitor once it has recorded the container it created. *)
Definition started (w : World) (st : State) : State :=
  snd (set_running_container_id (created_container_id w) st).

(** The error [run] raises when Falco has not come up. *)
Definition output_error : exn :=
  DagdaError (lit "Falcosecurity/falco output file not found.").

(** The calls [run] makes to show the warnings of Falco's logs. *)
Definition startup_warnings (w : World) : list action :=
  let logs := docker_logs w (created_container_id w) in
  if contains logs (lit "Rule ")
  then Now :: List.map LoggerWarning
                (parse_log_and_show_dagda_warnings (today w) logs)
  else [].

(** What the tailing loop may call: the insertion of a non-empty list of
    events and the sleep of two seconds. *)
Definition batch_ok (a : action) : Prop :=
  match a with
  | BulkInsertSysdigFalcoEvents events => events <> []
  | Sleep seconds => seconds = 2%nat
  | _ => False
  end.

Definition is_sleep (a : action) : bool :=
  match a with Sleep _ => true | _ => false end.

(** A computation that leaves the rules option, the name of the output
    file and the external flag as they were, and only adds to the calls
    made. *)
Definition keeps_configuration {A : Type} (m : M A) : Prop :=
  forall st,
    falco_rules (snd (m st)) = falco_rules st /\
    falco_output_filename (snd (m st)) = falco_output_filename st /\
    external_falco (snd (m st)) = external_falco st /\
    exists calls, trace (snd (m st)) = trace st ++ calls.

(** A record with every field whose tag is [null]. *)
Definition null_tag_record : string :=
  "{'output_fields':{'container.id':'abc','container.image.repository':'nginx','container.image.tag':null},'output':'X','priority':'WARNING','rule':'R1','time':'t1'}".

(** A line that holds nothing but its newline. *)
Definition blank_line : bytes := [x0a].

(** A host outside a container whose [/etc/os-release] names no
    distribution; the kernel headers are installed and Docker answers. *)
Definition nameless_host : World :=
  machine (Ok (text "ID=alpine|VERSION_ID=3.19|")) (Ok 0%Z)
    false true true [] [] (fun _ => []).

(** ** Facts about the string operations *)

Lemma startswith_app (r tail : str) : startswith (r ++ tail) r = true.
Proof.
  induction r as [|c r IH]; simpl.
  - destruct tail; reflexivity.
  - now rewrite N.eqb_refl, IH.
Qed.

Lemma lstrip_hd (s : str) (c : char) :
  hd_error (lstrip s) = Some c -> isspace c = false.
Proof.
  induction s as [|a s IH]; simpl; [discriminate|].
  destruct (isspace a) eqn:E; [exact IH|].
  simpl. intros [= <-]. exact E.
Qed.

Lemma lstrip_suffix (s : str) : exists p, s = p ++ lstrip s.
Proof.
  induction s as [|a s [p Hp]]; simpl.
  - now exists [].
  - destruct (isspace a).
    + exists (a :: p). simpl. now f_equal.
    + now exists [].
Qed.

Lemma lstrip_keeps_tail (a b : str) (c : char) (b' : str) :
  b = c :: b' -> isspace c = false -> exists x, lstrip (a ++ b) = x ++ b.
Proof.
  intros -> Hc. induction a as [|d a IH]; simpl.
  - rewrite Hc. now exists [].
  - destruct (isspace d); [exact IH|]. now exists (d :: a).
Qed.

Lemma rstrip_prefix (s : str) : exists q, s = rstrip s ++ q.
Proof.
  unfold rstrip. destruct (lstrip_suffix (rev s)) as [p Hp].
  exists (rev p). rewrite <- rev_app_distr, <- Hp. now rewrite rev_involutive.
Qed.

Lemma strip_trimmed (s : str) : trimmed (strip s).
Proof.
  split; unfold strip.
  - intros c H. destruct (rstrip_prefix (lstrip s)) as [q Hq].
    destruct (rstrip (lstrip s)) as [|d r] eqn:E; [discriminate|].
    simpl in H. injection H as <-.
    apply (lstrip_hd s). now rewrite Hq.
  - unfold rstrip. rewrite rev_involutive. apply lstrip_hd.
Qed.

(** Trimming a warning that was started by a trimmed, non-empty line keeps
    that line at its front. *)
Lemma strip_keeps_rule (r rest : str) :
  r <> [] -> trimmed r -> exists tail, strip (lit " " ++ r ++ rest) = r ++ tail.
Proof.
  intros Hne [Hhd Htl].
  assert (Hl : lstrip (lit " " ++ r ++ rest) = r ++ rest).
  { destruct r as [|c r']; [contradiction|].
    assert (Hc : isspace c = false) by (apply Hhd; reflexivity).
    change (lit " " ++ (c :: r') ++ rest) with (32%N :: c :: r' ++ rest).
    simpl. now rewrite Hc. }
  unfold strip. rewrite Hl. unfold rstrip. rewrite rev_app_distr.
  destruct (rev r) as [|d t] eqn:E.
  - apply (f_equal (@List.length _)) in E. rewrite length_rev in E.
    destruct r; [contradiction | discriminate].
  - assert (Hd : isspace d = false) by (apply Htl; reflexivity).
    destruct (lstrip_keeps_tail (rev rest) (d :: t) d t eq_refl Hd) as [x Hx].
    rewrite Hx, rev_app_distr, <- E, rev_involutive. now exists (rev x).
Qed.

Lemma starts_rule_strip (line : str) :
  starts_rule line = true -> strip line <> [] /\ trimmed (strip line).
Proof.
  unfold starts_rule. intros H. split; [|apply strip_trimmed].
  intros E. rewrite E in H. discriminate.
Qed.

(** A line that starts a rule never starts with a weekday: its first
    character is a blank or the letter R. *)
Lemma starts_rule_first_char (c : char) (l : str) :
  starts_rule (c :: l) = true -> isspace c = true \/ c = 82%N.
Proof.
  unfold starts_rule, strip. simpl lstrip.
  destruct (isspace c) eqn:E; [now left|]. intros H. right.
  destruct (rstrip_prefix (c :: l)) as [q Hq].
  destruct (rstrip (c :: l)) as [|d r]; [discriminate|].
  injection Hq as -> _. simpl in H.
  apply andb_prop in H. destruct H as [H _]. now apply N.eqb_eq in H.
Qed.

Lemma starts_rule_not_dated (today : weekday) (line : str) :
  starts_rule line = true -> startswith line (date_prefix today) = false.
Proof.
  destruct line as [|c l]; [discriminate|].
  intros H. destruct (starts_rule_first_char _ _ H) as [Hs | ->].
  - destruct today; simpl;
      match goal with
      | |- (N.eqb c ?k && _) = false =>
          destruct (N.eqb_spec c k) as [->|]; [discriminate Hs | reflexivity]
      end.
  - destruct today; reflexivity.
Qed.

(** ** The log classifier *)

Lemma classify_lines_cons (prefix warning line : str) (rest : list str) :
  classify_lines prefix warning (line :: rest) =
  (fst (classify_line prefix warning line)
     ++ fst (classify_lines prefix (snd (classify_line prefix warning line)) rest),
   snd (classify_lines prefix (snd (classify_line prefix warning line)) rest)).
Proof.
  cbn [classify_lines]. destruct (classify_line prefix warning line) as [o w].
  cbn [fst snd]. now destruct (classify_lines prefix w rest).
Qed.

Lemma classify_lines_app (prefix : str) (l1 l2 : list str) :
  forall warning,
    classify_lines prefix warning (l1 ++ l2) =
    (fst (classify_lines prefix warning l1)
       ++ fst (classify_lines prefix (snd (classify_lines prefix warning l1)) l2),
     snd (classify_lines prefix (snd (classify_lines prefix warning l1)) l2)).
Proof.
  induction l1 as [|line l1 IH]; intros warning.
  - simpl. now destruct (classify_lines prefix warning l2).
  - rewrite <- app_comm_cons, !classify_lines_cons, IH. simpl.
    now rewrite app_assoc.
Qed.

(** The three cases of one iteration. *)
Lemma classify_line_dated (prefix warning line : str) :
  startswith line prefix = true ->
  classify_line prefix warning line = ([], warning).
Proof. unfold classify_line. now intros ->. Qed.

Lemma classify_line_rule (prefix warning line : str) :
  startswith line prefix = false -> starts_rule line = true ->
  classify_line prefix warning line =
  ((if truthy warning then [strip warning] else []), lit " " ++ strip line).
Proof. unfold classify_line, starts_rule. now intros -> ->. Qed.

Lemma classify_line_other (prefix warning line : str) :
  startswith line prefix = false -> starts_rule line = false ->
  classify_line prefix warning line =
  ([], warning ++ lit " " ++ strip line).
Proof. unfold classify_line, starts_rule. now intros -> ->. Qed.

Lemma classify_line_no_rule (prefix warning line : str) :
  starts_rule line = false ->
  fst (classify_line prefix warning line) = [] /\
  (truthy warning = true ->
   truthy (snd (classify_line prefix warning line)) = true).
Proof.
  intros H. destruct (startswith line prefix) eqn:E.
  - rewrite classify_line_dated by assumption. now split.
  - rewrite classify_line_other by assumption. split; [reflexivity|].
    simpl. now destruct warning.
Qed.

Lemma classify_lines_no_rule (prefix : str) (lines : list str) :
  Forall (fun line => starts_rule line = false) lines ->
  forall warning,
    fst (classify_lines prefix warning lines) = [] /\
    (truthy warning = true ->
     truthy (snd (classify_lines prefix warning lines)) = true).
Proof.
  induction 1 as [|line lines Hline _ IH]; intros warning.
  - now split.
  - rewrite classify_lines_cons. simpl.
    destruct (classify_line_no_rule prefix warning line Hline) as [-> Ht].
    destruct (IH (snd (classify_line prefix warning line))) as [-> Ht'].
    split; [reflexivity | auto].
Qed.


(** After a rule line [r], every warning logged later begins with the rule
    line that started it, the one under way being [r]. *)
Lemma classify_after_rule (prefix : str) (lines : list str) :
  forall r rest,
    r <> [] -> trimmed r ->
    Forall2 begins_with
      (removelast (r :: rule_lines prefix lines))
      (fst (classify_lines prefix (lit " " ++ r ++ rest) lines)).
Proof.
  induction lines as [|line lines IH]; intros r rest Hne Htr.
  - constructor.
  - rewrite classify_lines_cons.
    cbn [rule_lines]. destruct (startswith line prefix) eqn:Ed.
    + rewrite classify_line_dated by assumption. simpl negb. simpl andb.
      cbn [fst snd app]. now apply IH.
    + simpl negb. simpl andb. destruct (starts_rule line) eqn:Er.
      * rewrite classify_line_rule by assumption. cbn [fst snd].
        change (truthy (lit " " ++ r ++ rest)) with true. cbn [app].
        destruct (starts_rule_strip _ Er) as [Hne' Htr'].
        change (r :: strip line :: rule_lines prefix lines)
          with ([r] ++ strip line :: rule_lines prefix lines).
        rewrite removelast_app by discriminate. cbn [app].
        constructor.
        -- destruct (strip_keeps_rule r rest Hne Htr) as [tail ->].
           apply startswith_app.
        -- rewrite <- (app_nil_r (strip line)) at 2. now apply IH.
      * rewrite classify_line_other by assumption. cbn [fst snd app].
        replace ((lit " " ++ r ++ rest) ++ lit " " ++ strip line)
          with (lit " " ++ r ++ (rest ++ lit " " ++ strip line))
          by (now rewrite !app_assoc).
        now apply IH.
Qed.

(** From any value of [warning]: at most one warning without rule line is
    logged (what was gathered before the first rule line), and the others
    begin with their rule lines, in order; the last rule line has none. *)
Lemma classify_from_any (prefix : str) (lines : list str) :
  forall warning,
  exists preamble ws,
    fst (classify_lines prefix warning lines) = preamble ++ ws /\
    (List.length preamble <= 1)%nat /\
    Forall2 begins_with (removelast (rule_lines prefix lines)) ws.
Proof.
  induction lines as [|line lines IH]; intros warning.
  - exists [], []. simpl. repeat split; [lia | constructor].
  - rewrite classify_lines_cons.
    cbn [rule_lines]. destruct (startswith line prefix) eqn:Ed.
    + rewrite classify_line_dated by assumption. simpl negb. simpl andb.
      cbn [fst snd app]. apply IH.
    + simpl negb. simpl andb. destruct (starts_rule line) eqn:Er.
      * rewrite classify_line_rule by assumption. cbn [fst snd].
        destruct (starts_rule_strip _ Er) as [Hne Htr].
        exists (if truthy warning then [strip warning] else []).
        eexists. split; [reflexivity|]. split.
        -- destruct (truthy warning); simpl; lia.
        -- rewrite <- (app_nil_r (strip line)) at 2.
           now apply classify_after_rule.
      * rewrite classify_line_other by assumption. cbn [fst snd app].
        apply IH.
Qed.

Lemma rule_lines_date_prefix (today : weekday) (lines : list str) :
  rule_lines (date_prefix today) lines =
  List.map strip (List.filter starts_rule lines).
Proof.
  induction lines as [|line lines IH]; [reflexivity|].
  cbn [rule_lines List.filter]. destruct (starts_rule line) eqn:Er.
  - rewrite (starts_rule_not_dated today _ Er). simpl. now rewrite IH.
  - rewrite andb_false_r. exact IH.
Qed.

(** No line that starts a rule: nothing is logged. *)
Lemma no_rule_line_no_warning (today : weekday) (sysdig_falco_logs : str) :
  Forall (fun line => starts_rule line = false) (split LF sysdig_falco_logs) ->
  parse_log_and_show_dagda_warnings today sysdig_falco_logs = [].
Proof.
  intros H. unfold parse_log_and_show_dagda_warnings.
  now destruct (classify_lines_no_rule (date_prefix today) _ H []) as [-> _].
Qed.

(** C2: a text made of two blocks, each a rule line followed by lines that
    start no rule, makes the classifier log one warning, not two: the
    first block is logged when the second rule line is met, and the second
    block is still in the variable [warning] when the loop ends, where it
    is dropped (a text without rule line logs nothing, see
    [no_rule_line_no_warning]). *)
Theorem two_rule_blocks_log_one_warning
    (today : weekday) (sysdig_falco_logs r1 r2 : str) (c1 c2 : list str) :
  split LF sysdig_falco_logs = r1 :: c1 ++ r2 :: c2 ->
  starts_rule r1 = true ->
  starts_rule r2 = true ->
  Forall (fun line => starts_rule line = false) c1 ->
  Forall (fun line => starts_rule line = false) c2 ->
  classify_lines (date_prefix today) [] (split LF sysdig_falco_logs) =
    ([strip (snd (classify_lines (date_prefix today) [] (r1 :: c1)))],
     snd (classify_lines (date_prefix today) [] (r2 :: c2))) /\
  List.length (parse_log_and_show_dagda_warnings today sysdig_falco_logs) = 1%nat.
Proof.
  intros Hsplit H1 H2 Hc1 Hc2.
  unfold parse_log_and_show_dagda_warnings. rewrite Hsplit.
  assert (E : classify_lines (date_prefix today) [] (r1 :: c1 ++ r2 :: c2) =
              ([strip (snd (classify_lines (date_prefix today) [] (r1 :: c1)))],
               snd (classify_lines (date_prefix today) [] (r2 :: c2)))).
  { change (r1 :: c1 ++ r2 :: c2) with ((r1 :: c1) ++ r2 :: c2).
    rewrite classify_lines_app.
    assert (Hfst : fst (classify_lines (date_prefix today) [] (r1 :: c1)) = [] /\
                   truthy (snd (classify_lines (date_prefix today) [] (r1 :: c1))) = true).
    { rewrite classify_lines_cons.
      rewrite (classify_line_rule _ [] _ (starts_rule_not_dated today _ H1) H1).
      cbn [fst snd truthy app].
      destruct (classify_lines_no_rule (date_prefix today) _ Hc1 (lit " " ++ strip r1))
        as [-> Ht].
      split; [reflexivity | now apply Ht]. }
    destruct Hfst as [-> Ht].
    rewrite !(classify_lines_cons (date_prefix today) _ r2).
    rewrite !(classify_line_rule _ _ _ (starts_rule_not_dated today _ H2) H2).
    rewrite Ht. cbn [fst snd truthy app].
    now destruct (classify_lines_no_rule (date_prefix today) _ Hc2 (lit " " ++ strip r2))
      as [-> _]. }
  rewrite E. now split.
Qed.

Lemma two_rule_blocks_log_one_warning_witness :
  parse_log_and_show_dagda_warnings Monday (text "Rule A| a1|Rule B| b1")
    = [lit "Rule A a1"] /\
  List.length
    (parse_log_and_show_dagda_warnings Monday (text "Rule A| a1|Rule B| b1"))
    = 1%nat.
Proof.
  split; [reflexivity|].
  apply (two_rule_blocks_log_one_warning Monday (text "Rule A| a1|Rule B| b1")
           (lit "Rule A") (lit "Rule B") [lit " a1"] [lit " b1"]);
    try reflexivity; repeat constructor.
Defined.

(** C5, as stated, fails: a line that begins with the weekday prefix is not
    put into the warning being gathered. *)
Lemma dated_line_is_not_accumulated :
  ~ (forall (today : weekday) (warning line : str),
        startswith line (date_prefix today) = true ->
        contains (snd (classify_line (date_prefix today) warning line)) line
        = true).
Proof.
  intros H.
  specialize (H Monday (lit " Rule A") (lit "Mon 12:00 falco") eq_refl).
  vm_compute in H. discriminate H.
Qed.

(** C5 (amended): a line that begins with the current weekday's
    three-letter abbreviation followed by a space is skipped.  It logs
    nothing and leaves [warning] as it was, so it neither starts nor flushes
    a warning and is part of none; the classifier behaves on a text as on
    the text without that line. *)
Theorem dated_line_is_skipped (today : weekday) (line : str) :
  startswith line (date_prefix today) = true ->
  (forall warning,
      classify_line (date_prefix today) warning line = ([], warning)) /\
  (forall warning before after,
      classify_lines (date_prefix today) warning (before ++ line :: after) =
      classify_lines (date_prefix today) warning (before ++ after)).
Proof.
  intros H. split.
  - intros warning. now apply classify_line_dated.
  - intros warning before after.
    rewrite !classify_lines_app, classify_lines_cons.
    rewrite classify_line_dated by assumption. reflexivity.
Qed.

Lemma dated_line_is_skipped_witness :
  classify_line (date_prefix Monday) (lit " Rule A") (lit "Mon 12:00 falco")
  = ([], lit " Rule A").
Proof.
  apply (proj1 (dated_line_is_skipped Monday (lit "Mon 12:00 falco") eq_refl)).
Defined.


(** ** The decoder terminates within its fuel *)

(** Arithmetic on lengths, whatever name the type of characters goes by. *)
Ltac len_lia := unfold str, char in *; simpl in *; lia.

Lemma skip_ws_length (s : str) :
  (List.length (Json.skip_ws s) <= List.length s)%nat.
Proof.
  induction s as [|c s IH]; simpl; [lia|].
  destruct (Json.is_ws c); simpl; lia.
Qed.

(** The rest of a string after one more character or escape: the
    induction hypothesis applies to it. *)
Ltac by_IH IH :=
  match goal with
  | H : match Json.scanstring ?t with _ => _ end = Some _ |- _ =>
      let E := fresh "E" in
      destruct (Json.scanstring t) as [[? ?]|] eqn:E;
      [injection H as _ <-; apply IH in E; simpl in *; lia
      | discriminate H]
  end.

Lemma scanstring_shorter_upto (n : nat) :
  forall s x rest,
    (List.length s <= n)%nat ->
    Json.scanstring s = Some (x, rest) ->
    (List.length rest < List.length s)%nat.
Proof.
  induction n as [|n IH]; intros s x rest Hn H.
  - destruct s; [discriminate H | simpl in Hn; lia].
  - destruct s as [|c t]; [discriminate H|].
    cbn [Json.scanstring] in H.
    destruct (c =? 34)%N; [injection H as _ <-; simpl; lia|].
    destruct (c =? 92)%N.
    + destruct t as [|e t1]; [discriminate H|].
      destruct (e =? 117)%N.
      * destruct t1 as [|h1 [|h2 [|h3 [|h4 t2]]]]; try discriminate H.
        destruct (Json.hex4 h1 h2 h3 h4) as [u|]; [|discriminate H].
        destruct t2 as [|b [|v [|l1 [|l2 [|l3 [|l4 t3]]]]]];
          try by_IH IH.
        destruct (Json.is_high_surrogate u && (b =? 92)%N && (v =? 117)%N);
          [|by_IH IH].
        destruct (Json.hex4 l1 l2 l3 l4) as [u2|]; [|discriminate H].
        destruct (Json.is_low_surrogate u2); by_IH IH.
      * destruct (Json.backslash e); [by_IH IH | discriminate H].
    + destruct (c <=? 31)%N; [discriminate H | by_IH IH].
Qed.

Lemma scanstring_shorter (s x rest : str) :
  Json.scanstring s = Some (x, rest) ->
  (List.length rest < List.length s)%nat.
Proof. apply (scanstring_shorter_upto (List.length s)). lia. Qed.

Lemma span_digits_length (s : str) :
  (List.length (snd (Json.span_digits s)) <= List.length s)%nat.
Proof.
  induction s as [|c s IH]; simpl; [lia|].
  destruct (Json.is_digit c); [|simpl; lia].
  destruct (Json.span_digits s). simpl in *. lia.
Qed.

Lemma match_fraction_length (s : str) :
  (List.length (snd (Json.match_fraction s)) <= List.length s)%nat.
Proof.
  unfold Json.match_fraction.
  destruct s as [|dot [|d s']]; simpl; try lia.
  destruct ((dot =? 46)%N && Json.is_digit d); [|simpl; lia].
  pose proof (span_digits_length s') as H.
  destruct (Json.span_digits s'). simpl in *. lia.
Qed.

Lemma match_exponent_length (s : str) :
  (List.length (snd (Json.match_exponent s)) <= List.length s)%nat.
Proof.
  unfold Json.match_exponent.
  destruct s as [|e s1]; simpl; [lia|].
  destruct ((e =? 101)%N || (e =? 69)%N); [|simpl; lia].
  destruct s1 as [|c s2].
  - simpl. lia.
  - destruct ((c =? 45)%N || (c =? 43)%N).
    + pose proof (span_digits_length s2) as H.
      destruct (Json.span_digits s2) as [[|d ds] r]; simpl in *; lia.
    + pose proof (span_digits_length (c :: s2)) as H.
      destruct (Json.span_digits (c :: s2)) as [[|d ds] r]; simpl in *; lia.
Qed.

Lemma match_number_shorter (s lexeme rest : str) :
  Json.match_number s = Some (lexeme, rest) ->
  (List.length rest < List.length s)%nat.
Proof.
  unfold Json.match_number.
  assert (Hint : forall s1 sign,
    match s1 with
    | [] => None
    | d :: s2 =>
        match
          (if Utf8.between 49 d 57
           then let '(ds, rest) := Json.span_digits s2 in Some (d :: ds, rest)
           else if (d =? 48)%N then Some ([d], s2) else None)
        with
        | Some (ds, rest0) =>
            let '(frac, rest1) := Json.match_fraction rest0 in
            let '(expo, rest2) := Json.match_exponent rest1 in
            Some (sign ++ ds ++ frac ++ expo, rest2)
        | None => None
        end
    end = Some (lexeme, rest) ->
    (List.length rest < List.length s1)%nat).
  { intros s1 sign H. destruct s1 as [|d s2]; [discriminate H|].
    assert (Hi : forall ds rest0,
      (List.length rest0 <= List.length s2)%nat ->
      (let '(frac, rest1) := Json.match_fraction rest0 in
       let '(expo, rest2) := Json.match_exponent rest1 in
       Some (sign ++ ds ++ frac ++ expo, rest2)) = Some (lexeme, rest) ->
      (List.length rest < List.length (d :: s2))%nat).
    { intros ds rest0 Hle H0.
      pose proof (match_fraction_length rest0) as Hf.
      destruct (Json.match_fraction rest0) as [frac rest1].
      pose proof (match_exponent_length rest1) as He.
      destruct (Json.match_exponent rest1) as [expo rest2].
      injection H0 as _ <-. simpl in *. lia. }
    destruct (Utf8.between 49 d 57).
    - pose proof (span_digits_length s2) as Hs.
      destruct (Json.span_digits s2) as [ds r]. eapply Hi; [|exact H].
      exact Hs.
    - destruct (d =? 48)%N; [|discriminate H].
      eapply Hi; [|exact H]. apply le_n. }
  destruct s as [|c s']; [intros H; discriminate H|].
  destruct (c =? 45)%N; intros H.
  - apply (Hint s' [c]) in H. len_lia.
  - apply (Hint (c :: s') []) in H. exact H.
Qed.

Lemma startswith_length (s p : str) :
  startswith s p = true -> (List.length p <= List.length s)%nat.
Proof.
  revert s. induction p as [|c p IH]; intros s H; simpl; [lia|].
  destruct s as [|d s]; [discriminate H|]. simpl in H.
  apply andb_prop in H. destruct H as [_ H]. apply IH in H. simpl. lia.
Qed.

Lemma word_shorter (w s rest : str) :
  w <> [] -> Json.word w s = Some rest ->
  (List.length rest < List.length s)%nat.
Proof.
  unfold Json.word. intros Hw H.
  destruct (startswith s w) eqn:E; [|discriminate H].
  injection H as <-. apply startswith_length in E.
  rewrite length_skipn. destruct w; [contradiction|]. simpl in *. lia.
Qed.

(** Every successful scan consumes at least one character. *)
Lemma scan_consumes (fuel : nat) :
  (forall s v rest,
      Json.scan_once fuel s = Ok (v, rest) ->
      (List.length rest < List.length s)%nat) /\
  (forall s items v rest,
      Json.array_loop fuel s items = Ok (v, rest) ->
      (List.length rest < List.length s)%nat) /\
  (forall s members v rest,
      Json.object_loop fuel s members = Ok (v, rest) ->
      (List.length rest < List.length s)%nat).
Proof.
  induction fuel as [|fuel [IHs [IHa IHo]]].
  - repeat split; intros; discriminate.
  - split; [|split].
    + intros s v rest H. cbn [Json.scan_once] in H.
      destruct s as [|c t]; [discriminate H|].
      destruct (c =? 34)%N.
      { destruct (Json.scanstring t) as [[x r]|] eqn:E; [|discriminate H].
        injection H as _ <-. apply scanstring_shorter in E. len_lia. }
      destruct (c =? 123)%N.
      { pose proof (skip_ws_length t) as L.
        destruct (Json.skip_ws t) as [|c' t'] eqn:E; [discriminate H|].
        simpl in L.
        destruct (c' =? 125)%N.
        - injection H as _ <-. len_lia.
        - apply IHo in H. len_lia. }
      destruct (c =? 91)%N.
      { pose proof (skip_ws_length t) as L.
        destruct (Json.skip_ws t) as [|c' t'] eqn:E; [discriminate H|].
        simpl in L.
        destruct (c' =? 93)%N.
        - injection H as _ <-. len_lia.
        - apply IHa in H. len_lia. }
      repeat match type of H with
        | context [Json.word ?w (c :: t)] =>
            let E := fresh "E" in
            destruct (Json.word w (c :: t)) eqn:E;
            [injection H as _ <-;
             apply word_shorter in E; [exact E | discriminate]|]
        end.
      destruct (Json.match_number (c :: t)) as [[lexeme r]|] eqn:En;
        [|discriminate H].
      injection H as _ <-. now apply match_number_shorter in En.
    + intros s items v rest H. cbn [Json.array_loop] in H.
      destruct (Json.scan_once fuel s) as [[v0 r0]|e] eqn:E;
        [|discriminate H].
      apply IHs in E. cbn [rbind] in H.
      pose proof (skip_ws_length r0) as L.
      destruct (Json.skip_ws r0) as [|c t] eqn:Ew; [discriminate H|].
      simpl in L.
      destruct (c =? 93)%N.
      * injection H as _ <-. len_lia.
      * destruct (c =? 44)%N; [|discriminate H].
        apply IHa in H. pose proof (skip_ws_length t). len_lia.
    + intros s members v rest H. cbn [Json.object_loop] in H.
      destruct s as [|q t]; [discriminate H|].
      destruct (q =? 34)%N; [|discriminate H].
      destruct (Json.scanstring t) as [[key r0]|] eqn:Es; [|discriminate H].
      apply scanstring_shorter in Es.
      pose proof (skip_ws_length r0) as L0.
      destruct (Json.skip_ws r0) as [|colon r1] eqn:Ew0; [discriminate H|].
      simpl in L0.
      destruct (colon =? 58)%N; [|discriminate H].
      destruct (Json.scan_once fuel (Json.skip_ws r1)) as [[v0 r2]|e] eqn:E;
        [|discriminate H].
      apply IHs in E. pose proof (skip_ws_length r1) as L1.
      cbn [rbind] in H.
      pose proof (skip_ws_length r2) as L2.
      destruct (Json.skip_ws r2) as [|c t'] eqn:Ew2; [discriminate H|].
      simpl in L2.
      destruct (c =? 125)%N.
      * injection H as _ <-. len_lia.
      * destruct (c =? 44)%N; [|discriminate H].
        apply IHo in H. pose proof (skip_ws_length t'). len_lia.
Qed.

(** With two units of fuel per character no scan runs out of fuel. *)
Lemma scan_fuel (fuel : nat) :
  (forall s,
      (2 * List.length s + 1 <= fuel)%nat ->
      Json.scan_once fuel s <> Raise RecursionError) /\
  (forall s items,
      (2 * List.length s + 2 <= fuel)%nat ->
      Json.array_loop fuel s items <> Raise RecursionError) /\
  (forall s members,
      (2 * List.length s + 2 <= fuel)%nat ->
      Json.object_loop fuel s members <> Raise RecursionError).
Proof.
  induction fuel as [|fuel [IHs [IHa IHo]]].
  - repeat split; intros; lia.
  - split; [|split].
    + intros s Hf. cbn [Json.scan_once].
      destruct s as [|c t]; [discriminate|].
      destruct (c =? 34)%N.
      { destruct (Json.scanstring t) as [[x r]|]; discriminate. }
      destruct (c =? 123)%N.
      { pose proof (skip_ws_length t) as L.
        destruct (Json.skip_ws t) as [|c' t']; [discriminate|].
        destruct (c' =? 125)%N; [discriminate|]. apply IHo. len_lia. }
      destruct (c =? 91)%N.
      { pose proof (skip_ws_length t) as L.
        destruct (Json.skip_ws t) as [|c' t']; [discriminate|].
        destruct (c' =? 93)%N; [discriminate|]. apply IHa. len_lia. }
      repeat match goal with
        | |- context [Json.word ?w (c :: t)] =>
            destruct (Json.word w (c :: t)); [discriminate|]
        end.
      destruct (Json.match_number (c :: t)) as [[lexeme r]|]; discriminate.
    + intros s items Hf. cbn [Json.array_loop].
      assert (Hs : Json.scan_once fuel s <> Raise RecursionError)
        by (apply IHs; lia).
      destruct (Json.scan_once fuel s) as [[v0 r0]|e] eqn:E.
      * apply (proj1 (scan_consumes fuel)) in E. cbn [rbind].
        pose proof (skip_ws_length r0) as L.
        destruct (Json.skip_ws r0) as [|c t]; [discriminate|].
        destruct (c =? 93)%N; [discriminate|].
        destruct (c =? 44)%N; [|discriminate].
        apply IHa. pose proof (skip_ws_length t). len_lia.
      * cbn [rbind]. congruence.
    + intros s members Hf. cbn [Json.object_loop].
      destruct s as [|q t]; [discriminate|].
      destruct (q =? 34)%N; [|discriminate].
      destruct (Json.scanstring t) as [[key r0]|] eqn:Es; [|discriminate].
      apply scanstring_shorter in Es.
      pose proof (skip_ws_length r0) as L0.
      destruct (Json.skip_ws r0) as [|colon r1]; [discriminate|].
      destruct (colon =? 58)%N; [|discriminate].
      pose proof (skip_ws_length r1) as L1.
      assert (Hs : Json.scan_once fuel (Json.skip_ws r1)
                   <> Raise RecursionError) by (apply IHs; len_lia).
      destruct (Json.scan_once fuel (Json.skip_ws r1)) as [[v0 r2]|e] eqn:E.
      * apply (proj1 (scan_consumes fuel)) in E. cbn [rbind].
        pose proof (skip_ws_length r2) as L2.
        destruct (Json.skip_ws r2) as [|c t']; [discriminate|].
        destruct (c =? 125)%N; [discriminate|].
        destruct (c =? 44)%N; [|discriminate].
        apply IHo. pose proof (skip_ws_length t'). len_lia.
      * cbn [rbind]. congruence.
Qed.

(** The fuel [loads] gives to [scan_once] is never used up. *)
Lemma loads_fuel_enough (s : str) : Json.loads s <> Raise RecursionError.
Proof.
  unfold Json.loads. destruct (startswith s [65279%N]); [discriminate|].
  assert (Hs : Json.scan_once (S (2 * List.length s)) (Json.skip_ws s)
               <> Raise RecursionError).
  { apply (proj1 (scan_fuel _)). pose proof (skip_ws_length s). len_lia. }
  destruct (Json.scan_once (S (2 * List.length s)) (Json.skip_ws s))
    as [[v rest]|e]; cbn [rbind].
  - destruct (Json.skip_ws rest); discriminate.
  - congruence.
Qed.

(** ** One line of the output file *)

Lemma process_line_parsed (events : list dict) (line : bytes) (s : str)
    (json_data : json) :
  Utf8.decode line = Ok s ->
  Json.loads (replace s [LF] []) = Ok json_data ->
  process_line events line =
  (output_fields <- getitem json_data (lit "output_fields") ;;
   container_id <- getitem output_fields (lit "container.id") ;;
   if negb (eq_str container_id (lit "host")) then
     match build_falco_event json_data container_id with
     | Ok falco_event => Ok (events ++ [falco_event])
     | Raise IndexError => Ok events
     | Raise (KeyError _) => Ok events
     | Raise e => Raise e
     end
   else Ok events)%result.
Proof.
  intros Hd Hl. unfold process_line. rewrite Hd. cbn [rbind].
  now rewrite Hl.
Qed.

Lemma process_lines_skip (events : list dict) (line : bytes)
    (rest : list bytes) :
  process_line events line = Ok events ->
  process_lines events (line :: rest) = process_lines events rest.
Proof. intros H. simpl. now rewrite H. Qed.

Lemma build_falco_event_well_formed (d o : dict)
    (cid output priority rule time : json) (repository : str) :
  dict_get d (lit "output_fields") = Some (JObject o) ->
  dict_get o (lit "container.image.repository") = Some (JString repository) ->
  string_if_present o (lit "container.image.tag") ->
  dict_get d (lit "output") = Some output ->
  dict_get d (lit "priority") = Some priority ->
  dict_get d (lit "rule") = Some rule ->
  dict_get d (lit "time") = Some time ->
  build_falco_event (JObject d) cid =
  Ok (falco_event_of cid
        (image_name_of repository (dict_get o (lit "container.image.tag")))
        output priority rule time).
Proof.
  intros Hof Hrepo Htag Hout Hprio Hrule Htime.
  unfold build_falco_event, getitem, py_in, dict_mem.
  rewrite Hof. cbn [rbind]. rewrite Hrepo. cbn [rbind].
  destruct (dict_get o (lit "container.image.tag")) as [t|] eqn:Et.
  - destruct (Htag t Et) as [tag ->]. cbn [rbind].
    rewrite Hout, Hprio, Hrule, Htime. reflexivity.
  - cbn [rbind]. rewrite Hout, Hprio, Hrule, Htime. reflexivity.
Qed.

(** A record that lacks a field read inside the [try] block raises
    [KeyError] there. *)
Lemma build_falco_event_missing (d o : dict) (cid : json) :
  dict_get d (lit "output_fields") = Some (JObject o) ->
  string_if_present o (lit "container.image.repository") ->
  string_if_present o (lit "container.image.tag") ->
  has_event_fields d o = false ->
  exists key, build_falco_event (JObject d) cid = Raise (KeyError key).
Proof.
  intros Hof Hrepo Htag Hmiss.
  unfold build_falco_event, getitem, py_in.
  rewrite Hof. cbn [rbind].
  unfold has_event_fields, dict_mem in *.
  destruct (dict_get o (lit "container.image.repository")) as [r|] eqn:Er;
    [|eexists; reflexivity].
  destruct (Hrepo r Er) as [repository ->]. cbn [rbind].
  assert (Hsuffix :
    match dict_get o (lit "container.image.tag") with
    | Some t => exists tag, t = JString tag
    | None => True
    end).
  { destruct (dict_get o (lit "container.image.tag")) as [t|] eqn:Et;
      [now apply Htag | exact I]. }
  destruct (dict_get o (lit "container.image.tag")) as [t|];
    [destruct Hsuffix as [tag ->]|];
    destruct (dict_get d (lit "output"));
    destruct (dict_get d (lit "priority"));
    destruct (dict_get d (lit "rule"));
    destruct (dict_get d (lit "time"));
    try discriminate Hmiss; eexists; reflexivity.
Qed.

(** A line that decodes to a JSON object with an [output_fields] object
    holding a [container.id] other than [host] and a repository string,
    with [output], [priority], [rule] and [time], adds exactly one event to
    [sysdig_falco_events]; the event has the six fields, and its
    [image_name] is the repository, followed by a colon and the tag exactly
    when [container.image.tag] is in the record. *)
Theorem well_formed_record_one_event
    (events : list dict) (line : bytes) (s : str) (d o : dict)
    (cid output priority rule time : json) (repository : str) :
  Utf8.decode line = Ok s ->
  Json.loads (replace s [LF] []) = Ok (JObject d) ->
  dict_get d (lit "output_fields") = Some (JObject o) ->
  dict_get o (lit "container.id") = Some cid ->
  eq_str cid (lit "host") = false ->
  dict_get o (lit "container.image.repository") = Some (JString repository) ->
  string_if_present o (lit "container.image.tag") ->
  dict_get d (lit "output") = Some output ->
  dict_get d (lit "priority") = Some priority ->
  dict_get d (lit "rule") = Some rule ->
  dict_get d (lit "time") = Some time ->
  process_line events line =
  Ok (events ++
      [falco_event_of cid
         (image_name_of repository (dict_get o (lit "container.image.tag")))
         output priority rule time]).
Proof.
  intros Hd Hl Hof Hcid Hhost Hrepo Htag Hout Hprio Hrule Htime.
  rewrite (process_line_parsed events line s (JObject d) Hd Hl).
  unfold getitem. rewrite Hof. cbn [rbind]. rewrite Hcid. cbn [rbind].
  rewrite Hhost. cbn [negb].
  now rewrite (build_falco_event_well_formed d o cid output priority rule
                 time repository Hof Hrepo Htag Hout Hprio Hrule Htime).
Qed.

Lemma well_formed_record_one_event_witness :
  process_line [] (json_line nginx_record) = Ok [nginx_event].
Proof.
  refine (well_formed_record_one_event [] (json_line nginx_record)
            (json_text nginx_record) nginx_json nginx_output_fields
            (JString (lit "abc")) (JString (lit "X"))
            (JString (lit "WARNING")) (JString (lit "R1"))
            (JString (lit "t1")) (lit "nginx") _ _ _ _ _ _ _ _ _ _ _);
    try (vm_compute; reflexivity).
  intros v H. vm_compute in H. injection H as <-. eexists. reflexivity.
Defined.

(** C3: not every record with its fields yields an event.  A record whose
    [container.id] is not [host] and that holds the repository, the tag,
    [output], [priority], [rule] and [time], the tag being [null], passes
    the test for the tag and then raises [TypeError] when the colon and the
    tag are joined; the [try] block does not catch it, so it leaves [run]:
    no event is built, and the pass is lost with the events gathered
    before. *)
Lemma null_tag_record_raises :
  process_line [] (json_line null_tag_record) = Raise TypeError /\
  tail_cycle (json_line nginx_record ++ [x0a] ++ json_line null_tag_record
              ++ [x0a]) 0
  = Raise TypeError.
Proof. split; vm_compute; reflexivity. Qed.

(** C4: a line whose [container.id] is [host] raises nothing and leaves
    [sysdig_falco_events] as it was, so the pass goes on as if the line were
    not there; a pass that reads only that line returns no event, and the
    loop then makes no call but [time.sleep(2)]. *)
Theorem host_record_no_event
    (events : list dict) (line : bytes) (s : str)
    (json_data output_fields : json) :
  Utf8.decode line = Ok s ->
  Json.loads (replace s [LF] []) = Ok json_data ->
  getitem json_data (lit "output_fields") = Ok output_fields ->
  getitem output_fields (lit "container.id") = Ok (JString (lit "host")) ->
  process_line events line = Ok events /\
  (forall rest,
      process_lines events (line :: rest) = process_lines events rest) /\
  (forall file position,
      readlines is_LF_byte (skipn position file) = [line] ->
      tail_cycle file position
      = Ok ((position + List.length line)%nat, [])).
Proof.
  intros Hd Hl Hof Hcid.
  assert (H : forall evs, process_line evs line = Ok evs).
  { intros evs. rewrite (process_line_parsed evs line s json_data Hd Hl).
    rewrite Hof. cbn [rbind]. now rewrite Hcid. }
  split; [apply H|]. split.
  - intros rest. now apply process_lines_skip.
  - intros file position Hread. unfold tail_cycle. rewrite Hread.
    cbn [process_lines rbind]. rewrite H. cbn [rbind List.concat].
    now rewrite app_nil_r.
Qed.

Lemma host_record_no_event_witness :
  process_line [nginx_event] (json_line host_record) = Ok [nginx_event].
Proof.
  refine (proj1 (host_record_no_event [nginx_event] (json_line host_record)
                   (json_text host_record) _ _ _ _ _ _));
    vm_compute; reflexivity.
Defined.

(** Whatever [json.loads] raises leaves the loop body: the call is outside
    the [try] block. *)
Lemma invalid_json_raises (events : list dict) (line : bytes) (s : str)
    (e : exn) :
  Utf8.decode line = Ok s ->
  Json.loads (replace s [LF] []) = Raise e ->
  process_line events line = Raise e /\
  (forall rest, process_lines events (line :: rest) = Raise e).
Proof.
  intros Hd Hl.
  assert (H : process_line events line = Raise e).
  { unfold process_line. rewrite Hd. cbn [rbind]. now rewrite Hl. }
  split; [exact H|]. intros rest. simpl. now rewrite H.
Qed.

(** C1: the loop body does not get past every malformed line.  [json.loads]
    and the lookups of [output_fields] and [container.id] stand before the
    [try] block, which catches [KeyError] and [IndexError] only: a record
    the writer has not finished and a blank line raise [JSONDecodeError], a
    record without [output_fields] raises [KeyError], a record without
    [time] whose tag is a number raises [TypeError]; each leaves [run], and
    the pass that meets such a line is lost with the event it had
    gathered. *)
Lemma malformed_line_raises :
  process_line [] (json_line truncated_record) = Raise JSONDecodeError /\
  process_line [] blank_line = Raise JSONDecodeError /\
  process_line [] (json_line bare_record)
  = Raise (KeyError (lit "output_fields")) /\
  process_line [] (json_line numeric_tag_record) = Raise TypeError /\
  tail_cycle (json_line nginx_record ++ [x0a] ++ json_line truncated_record) 0
  = Raise JSONDecodeError.
Proof. repeat split; vm_compute; reflexivity. Qed.

(** What the [try] block does catch: a line that decodes to a JSON object
    whose [output_fields] is an object with a [container.id], in which
    repository and tag are strings when present, and which lacks the
    repository, [output], [priority], [rule] or [time], raises nothing and
    adds no event; the loop goes on with the next line. *)
Theorem record_missing_field_is_skipped
    (events : list dict) (line : bytes) (s : str) (d o : dict) (cid : json) :
  Utf8.decode line = Ok s ->
  Json.loads (replace s [LF] []) = Ok (JObject d) ->
  dict_get d (lit "output_fields") = Some (JObject o) ->
  dict_get o (lit "container.id") = Some cid ->
  string_if_present o (lit "container.image.repository") ->
  string_if_present o (lit "container.image.tag") ->
  has_event_fields d o = false ->
  process_line events line = Ok events /\
  (forall rest,
      process_lines events (line :: rest) = process_lines events rest).
Proof.
  intros Hd Hl Hof Hcid Hrepo Htag Hmiss.
  assert (H : process_line events line = Ok events).
  { rewrite (process_line_parsed events line s (JObject d) Hd Hl).
    unfold getitem. rewrite Hof. cbn [rbind]. rewrite Hcid. cbn [rbind].
    destruct (build_falco_event_missing d o cid Hof Hrepo Htag Hmiss)
      as [key ->].
    now destruct (negb (eq_str cid (lit "host"))). }
  split; [exact H|]. intros rest. now apply process_lines_skip.
Qed.

Lemma record_missing_field_is_skipped_witness :
  process_line [nginx_event] (json_line old_record) = Ok [nginx_event].
Proof.
  refine (proj1 (record_missing_field_is_skipped [nginx_event]
                   (json_line old_record) (json_text old_record)
                   old_json old_output_fields (JString (lit "abc"))
                   _ _ _ _ _ _ _));
    try (vm_compute; reflexivity);
    intros v H; vm_compute in H;
    first [discriminate H | injection H as <-; eexists; reflexivity].
Defined.

(** ** The trace *)

Lemma after_calls_nil (st : State) : after_calls st [] = st.
Proof. destruct st. unfold after_calls. simpl. now rewrite app_nil_r. Qed.

Lemma after_calls_app (st : State) (a b : list action) :
  after_calls (after_calls st a) b = after_calls st (a ++ b).
Proof. unfold after_calls. simpl. now rewrite app_assoc. Qed.

(** ** The tailing loop *)

Lemma readlines_concat {A : Type} (f : A -> bool) (s : list A) :
  List.concat (readlines f s) = s.
Proof.
  induction s as [|c s IH]; [reflexivity|]. simpl.
  destruct (f c); simpl; [now rewrite IH|].
  destruct (readlines f s) as [|l ls]; simpl in *; now rewrite <- IH.
Qed.

(** [fbuf.tell()] after [readlines]: the end of the file, or the offset
    sought when that lies beyond it. *)
Lemma tail_cycle_position (file : bytes) (position position' : nat)
    (events : list dict) :
  tail_cycle file position = Ok (position', events) ->
  position' = Nat.max position (List.length file).
Proof.
  unfold tail_cycle. rewrite readlines_concat, length_skipn.
  destruct (process_lines [] _); simpl; [|discriminate].
  intros [= <- _]. lia.
Qed.

Lemma tail_cycle_idle (file : bytes) (position : nat) :
  (List.length file <= position)%nat ->
  readlines is_LF_byte (skipn position file) = [] /\
  tail_cycle file position = Ok (position, []).
Proof.
  intros H. unfold tail_cycle. rewrite (skipn_all2 file H). simpl.
  split; [reflexivity|]. now rewrite Nat.add_0_r.
Qed.

Section TailLoop.

(** The world the monitor runs in and the file it tails. *)
Variable w : World.
Variable path : str.

(** One pass of the loop. *)
Lemma tail_loop_pass (cycle cycles position : nat) (st : State) :
  tail_loop w path cycle (S cycles) position st =
  match tail_cycle (file_at_cycle w path cycle) position with
  | Ok (position', events) =>
      tail_loop w path (S cycle) cycles position'
        (after_calls st (pass_calls events))
  | Raise e => (Raise e, st)
  end.
Proof.
  cbn [tail_loop]. unfold bind at 1, lift.
  destruct (tail_cycle (file_at_cycle w path cycle) position)
    as [[position' events]|e]; [|reflexivity].
  unfold pass_calls, bind, call, ret.
  destruct (0 <? List.length events)%nat.
  - cbn. now rewrite after_calls_app.
  - reflexivity.
Qed.

Lemma tail_loop_monotone (cycles : nat) :
  forall cycle position st,
    match fst (tail_loop w path cycle cycles position st) with
    | Ok position' => (position <= position')%nat
    | Raise _ => True
    end.
Proof.
  induction cycles as [|cycles IH]; intros cycle position st.
  - simpl. lia.
  - rewrite tail_loop_pass.
    destruct (tail_cycle (file_at_cycle w path cycle) position)
      as [[position' events]|e] eqn:E; [|exact I].
    apply tail_cycle_position in E.
    specialize (IH (S cycle) position' (after_calls st (pass_calls events))).
    destruct (fst (tail_loop w path (S cycle) cycles position' _));
      [lia | exact I].
Qed.

Lemma tail_loop_calls (cycles : nat) :
  forall cycle position st,
  exists calls,
    snd (tail_loop w path cycle cycles position st) = after_calls st calls /\
    Forall (fun a => is_tail_call a = true) calls.
Proof.
  induction cycles as [|cycles IH]; intros cycle position st.
  - exists []. simpl. now rewrite after_calls_nil.
  - rewrite tail_loop_pass.
    destruct (tail_cycle (file_at_cycle w path cycle) position)
      as [[position' events]|e].
    + destruct (IH (S cycle) position' (after_calls st (pass_calls events)))
        as [calls [-> Hc]].
      exists (pass_calls events ++ calls). rewrite after_calls_app.
      split; [reflexivity|]. apply Forall_app. split; [|exact Hc].
      unfold pass_calls. destruct (0 <? List.length events)%nat;
        repeat constructor.
    + exists []. simpl. now rewrite after_calls_nil.
Qed.

(** C9: the cursor [last_file_position] never decreases from one pass of
    the loop to the next, and a pass that finds no byte beyond the cursor
    reads no line, finds no event, inserts nothing (its only call is
    [time.sleep(2)]) and leaves the cursor where it was. *)
Theorem tail_cursor_only_advances :
  (forall file position,
      match tail_cycle file position with
      | Ok (position', _) => position' = Nat.max position (List.length file)
      | Raise _ => True
      end) /\
  (forall cycle cycles position st,
      match fst (tail_loop w path cycle cycles position st) with
      | Ok position' => (position <= position')%nat
      | Raise _ => True
      end) /\
  (forall cycle cycles position st,
      (List.length (file_at_cycle w path cycle) <= position)%nat ->
      readlines is_LF_byte (skipn position (file_at_cycle w path cycle)) = [] /\
      tail_cycle (file_at_cycle w path cycle) position = Ok (position, []) /\
      tail_loop w path cycle (S cycles) position st =
      tail_loop w path (S cycle) cycles position (after_calls st [Sleep 2])).
Proof.
  split; [|split].
  - intros file position.
    destruct (tail_cycle file position) as [[position' events]|e] eqn:E;
      [|exact I].
    now apply tail_cycle_position in E.
  - intros. apply tail_loop_monotone.
  - intros cycle cycles position st H.
    destruct (tail_cycle_idle _ _ H) as [Hr Hc].
    split; [exact Hr|]. split; [exact Hc|].
    now rewrite tail_loop_pass, Hc.
Qed.

End TailLoop.

Lemma tail_cursor_only_advances_witness :
  tail_cycle scenario_file (List.length scenario_file)
  = Ok (List.length scenario_file, []).
Proof.
  refine (proj1 (proj2 (proj2 (proj2
            (tail_cursor_only_advances (host "Ubuntu" 0 false []) []))
            1%nat 0%nat (List.length scenario_file) self_managed _))).
  vm_compute. lia.
Defined.

(** ** Falco run by someone else *)

Lemma init_external (falco_rules_filename : option str) (path : str)
    (st : State) :
  external_falco (snd (init falco_rules_filename (Some path) st)) = true /\
  falco_output_filename (snd (init falco_rules_filename (Some path) st))
  = path.
Proof. now destruct falco_rules_filename. Qed.

(** C8: with the external flag set, [pre_check] makes no call at all and
    returns, and [run] only asks whether the output file is there, opens it
    and enters the tailing loop on it: it makes no call to the Docker
    driver, so no container is created or started and no logs are read. *)
Theorem external_falco_skips_sensor (w : World) (cycles : nat) (st : State) :
  external_falco st = true ->
  pre_check w st = (Ok tt, st) /\
  run w cycles st =
    (if isfile w (falco_output_filename st)
     then tail_loop w (falco_output_filename st) 0 cycles 0
            (after_calls st [IsFile (falco_output_filename st);
                             OpenFile (falco_output_filename st)])
     else (Raise (DagdaError
                    (lit "Falcosecurity/falco output file not found.")),
           after_calls st [IsFile (falco_output_filename st)])) /\
  exists calls,
    snd (run w cycles st) = after_calls st calls /\
    Forall (fun a => is_docker_call a = false) calls.
Proof.
  intros H.
  assert (Hrun :
    run w cycles st =
    (if isfile w (falco_output_filename st)
     then tail_loop w (falco_output_filename st) 0 cycles 0
            (after_calls st [IsFile (falco_output_filename st);
                             OpenFile (falco_output_filename st)])
     else (Raise (DagdaError
                    (lit "Falcosecurity/falco output file not found.")),
           after_calls st [IsFile (falco_output_filename st)]))).
  { unfold run, is_external_falco, bind, get, call, ret, raise.
    rewrite H. cbn [negb].
    destruct (isfile w (falco_output_filename st));
      repeat (progress (rewrite ?H; cbn));
      rewrite ?after_calls_app; reflexivity. }
  split; [|split; [exact Hrun|]].
  - unfold pre_check, is_external_falco, bind, get. now rewrite H.
  - rewrite Hrun. destruct (isfile w (falco_output_filename st)).
    + destruct (tail_loop_calls w (falco_output_filename st) cycles 0 0
                  (after_calls st [IsFile (falco_output_filename st);
                                   OpenFile (falco_output_filename st)]))
        as [calls [-> Hc]].
      rewrite after_calls_app. eexists. split; [reflexivity|].
      repeat constructor.
      eapply Forall_impl; [|exact Hc]. intros a Ha. now destruct a.
    + eexists. split; [reflexivity|]. repeat constructor.
Qed.

Lemma external_falco_skips_sensor_witness :
  pre_check (host "Ubuntu" 1 false []) externally_managed
  = (Ok tt, externally_managed) /\
  trace (snd (run (host "Ubuntu" 1 false []) 2 externally_managed))
  = [IsFile (lit "/var/log/falco.json"); OpenFile (lit "/var/log/falco.json");
     BulkInsertSysdigFalcoEvents [nginx_event]; Sleep 2; Sleep 2].
Proof.
  split.
  - exact (proj1 (external_falco_skips_sensor (host "Ubuntu" 1 false []) 2
                    externally_managed eq_refl)).
  - vm_compute. reflexivity.
Defined.

(** ** The pre-flight check *)

Arguments lit : simpl never.

(** On a host whose [/etc/os-release] names its distribution: when the
    monitor runs Falco itself, outside a container, and the name holds
    [Debian] or [Ubuntu] (and none of the RPM family names), and [dpkg]
    does not find the kernel headers (its return code is not 0),
    [pre_check] raises the error about missing kernel headers; when the
    name is of neither family it raises the error about an unsupported
    distribution.  In both cases the calls made are the reading
    of [/etc/os-release], [uname], the test for [/.dockerenv] and, on the
    Debian family, [dpkg]: no container is created or started. *)
Theorem pre_check_kernel_headers
    (w : World) (st : State) (os_release distro : str) :
  external_falco st = false ->
  etc_os_release w = Ok os_release ->
  first_NAME (readlines (N.eqb LF) os_release) = Some distro ->
  isfile w (lit "/.dockerenv") = false ->
  contains distro (lit "Red Hat") = false ->
  contains distro (lit "CentOS") = false ->
  contains distro (lit "Fedora") = false ->
  contains distro (lit "openSUSE") = false ->
  (forall return_code,
      contains distro (lit "Debian") || contains distro (lit "Ubuntu") = true ->
      subprocess_call w
        [lit "dpkg"; lit "-l"; lit "linux-headers-" ++ uname_release w]
      = Ok return_code ->
      return_code <> 0%Z ->
      pre_check w st =
      (Raise (DagdaError
         (lit "The kernel headers are not installed in the host operating system.")),
       after_calls st
         [OpenFile (lit "/etc/os-release"); Uname; IsFile (lit "/.dockerenv");
          SubprocessCall
            [lit "dpkg"; lit "-l"; lit "linux-headers-" ++ uname_release w]]))
  /\
  (contains distro (lit "Debian") = false ->
   contains distro (lit "Ubuntu") = false ->
   pre_check w st =
   (Raise (DagdaError (lit "Linux distribution not supported yet.")),
    after_calls st
      [OpenFile (lit "/etc/os-release"); Uname; IsFile (lit "/.dockerenv")])).
Proof.
  intros Hext Hfile Hname Hdocker Hrh Hco Hfe Hsu.
  split.
  - intros return_code Hdeb Hcall Hrc.
    unfold pre_check, check_requirements, _get_linux_distro,
      is_external_falco, or_else, in_distro, bind, get, call, lift, ret, raise.
    rewrite Hext, Hfile, Hname. cbn. rewrite Hdocker. cbn.
    rewrite Hrh, Hco, Hfe, Hsu.
    destruct (contains distro (lit "Debian")); cbn in Hdeb |- *.
    + rewrite Hcall. apply Z.eqb_neq in Hrc. rewrite Hrc. cbn.
      now rewrite !after_calls_app.
    + rewrite Hdeb, Hcall. apply Z.eqb_neq in Hrc. rewrite Hrc. cbn.
      now rewrite !after_calls_app.
  - intros Hde Hub.
    unfold pre_check, check_requirements, _get_linux_distro,
      is_external_falco, or_else, in_distro, bind, get, call, lift, ret, raise.
    rewrite Hext, Hfile, Hname. cbn. rewrite Hdocker. cbn.
    rewrite Hrh, Hco, Hfe, Hsu, Hde, Hub.
    now rewrite !after_calls_app.
Qed.

Lemma pre_check_kernel_headers_witness :
  fst (pre_check (host "Ubuntu" 1 false []) self_managed)
  = Raise (DagdaError
      (lit "The kernel headers are not installed in the host operating system."))
  /\
  fst (pre_check (host "Arch Linux" 0 false []) self_managed)
  = Raise (DagdaError (lit "Linux distribution not supported yet.")).
Proof.
  split.
  - refine (f_equal fst
      (proj1 (pre_check_kernel_headers (host "Ubuntu" 1 false [])
                self_managed _ (lit "Ubuntu") _ _ _ _ _ _ _ _)
             1%Z _ _ _));
      try (vm_compute; reflexivity).
    intros H. discriminate H.
  - refine (f_equal fst
      (proj2 (pre_check_kernel_headers (host "Arch Linux" 0 false [])
                self_managed _ (lit "Arch Linux") _ _ _ _ _ _ _ _)
             _ _));
      vm_compute; reflexivity.
Defined.

(** C6: a host of neither family is not always refused with the error
    about an unsupported distribution.  When [/etc/os-release] has no line
    that starts with [NAME=], [_get_linux_distro] falls off its loop and
    returns [None]; outside a container the first membership test of
    [pre_check] then raises [TypeError], before the branch that raises the
    [DagdaError] is reached.  The calls made are the reading of
    [/etc/os-release], [uname] and the test for [/.dockerenv]. *)
Lemma nameless_host_raises_TypeError :
  docker_client nameless_host = true /\
  first_NAME (readlines (N.eqb LF) (text "ID=alpine|VERSION_ID=3.19|")) = None /\
  pre_check nameless_host self_managed
  = (Raise TypeError,
     after_calls self_managed
       [OpenFile (lit "/etc/os-release"); Uname; IsFile (lit "/.dockerenv")]).
Proof. repeat split; vm_compute; reflexivity. Qed.

Lemma prepare_docker_client (w : World) (st st' : State) :
  prepare_docker w st = (Ok tt, st') -> docker_client w = true.
Proof.
  unfold prepare_docker, bind, call, raise.
  destruct (docker_client w); [reflexivity|]. cbn. discriminate.
Qed.

(** C7: in the probe at the end of [pre_check], when the logs of the
    container just started hold the device error, [pre_check] raises and its
    last calls are the start of the container, the sleep and the reading of
    the logs: the container is neither stopped nor removed.  Otherwise the
    container is stopped and removed and [pre_check] returns. *)
Theorem pre_check_device_probe (w : World) (st st1 st2 : State) :
  external_falco st = false ->
  check_requirements w st = (Ok tt, st1) ->
  prepare_docker w st1 = (Ok tt, st2) ->
  (contains (docker_logs w (created_container_id w)) device_error = true ->
   fst (pre_check w st)
   = Raise (DagdaError
              (lit "Runtime error opening device /host/dev/sysdig0.")) /\
   trace (snd (pre_check w st))
   = trace st2 ++ probe_calls (created_container_id w)) /\
  (contains (docker_logs w (created_container_id w)) device_error = false ->
   fst (pre_check w st) = Ok tt /\
   trace (snd (pre_check w st))
   = trace st2 ++ probe_calls (created_container_id w)
       ++ [DockerStop (created_container_id w);
           DockerRemoveContainer (created_container_id w)]).
Proof.
  intros Hext Hreq Hprep.
  pose proof (prepare_docker_client w st1 st2 Hprep) as Hclient.
  assert (Hpre : pre_check w st = probe_device w st2).
  { unfold pre_check, is_external_falco, bind, get.
    rewrite Hext. cbn [negb]. now rewrite Hreq, Hprep. }
  rewrite Hpre.
  unfold probe_device, _start_container, set_running_container_id,
    bind, get, call, ret, raise.
  rewrite Hclient. cbn.
  split; intros Hlogs; rewrite Hlogs; cbn;
    rewrite <- !app_assoc; now split.
Qed.

Lemma pre_check_device_probe_witness :
  fst (pre_check (host "Ubuntu" 0 false device_error) self_managed)
  = Raise (DagdaError (lit "Runtime error opening device /host/dev/sysdig0."))
  /\
  fst (pre_check (host "Ubuntu" 0 false (lit "Falco initialized"))
         self_managed)
  = Ok tt.
Proof.
  split.
  - refine (proj1 (proj1
      (pre_check_device_probe (host "Ubuntu" 0 false device_error)
         self_managed _ _ _ _ _) _));
      vm_compute; reflexivity.
  - refine (proj1 (proj2
      (pre_check_device_probe
         (host "Ubuntu" 0 false (lit "Falco initialized"))
         self_managed _ _ _ _ _) _));
      vm_compute; reflexivity.
Defined.

(** ** Further properties of the monitor *)

Lemma startswith_nil (s : str) : startswith s [] = true.
Proof. now destruct s. Qed.

Lemma replace_char (s : str) (c : char) :
  replace s [c] [] = List.filter (fun d => negb (N.eqb d c)) s.
Proof.
  unfold replace. induction s as [|d s IH]; [reflexivity|].
  cbn [replace_from startswith List.length Nat.pred List.filter].
  rewrite startswith_nil, andb_true_r.
  destruct (N.eqb d c); cbn [negb app]; now rewrite IH.
Qed.

Lemma filter_filter {A : Type} (f g : A -> bool) (l : list A) :
  List.filter f (List.filter g l) = List.filter (fun x => g x && f x) l.
Proof.
  induction l as [|x l IH]; [reflexivity|]. simpl.
  destruct (g x); simpl; [destruct (f x)|]; now rewrite IH.
Qed.

(** X1: [_get_linux_distro] answers with the first line that starts with
    [NAME=], from which every [NAME=], newline, apostrophe and double quote
    is removed, so the name holds none of these three characters; it
    answers [None] exactly when no line starts with [NAME=]. *)
Theorem first_NAME_is_cleaned (lines : list str) :
  match first_NAME lines with
  | Some name =>
      exists before line after,
        lines = before ++ line :: after /\
        Forall (fun l => startswith l (lit "NAME=") = false) before /\
        startswith line (lit "NAME=") = true /\
        name = List.filter name_char (replace line (lit "NAME=") []) /\
        Forall (fun c => c <> LF /\ c <> 39%N /\ c <> 34%N) name
  | None => Forall (fun l => startswith l (lit "NAME=") = false) lines
  end.
Proof.
  induction lines as [|l lines IH]; [constructor|].
  cbn [first_NAME]. destruct (startswith l (lit "NAME=")) eqn:E.
  - exists [], l, lines. repeat split; [constructor | exact E | |].
    + rewrite !replace_char, !filter_filter. reflexivity.
    + rewrite !replace_char, !filter_filter. apply Forall_forall.
      intros c Hc. apply filter_In in Hc. destruct Hc as [_ Hc].
      apply andb_prop in Hc. destruct Hc as [H10 Hc].
      apply andb_prop in Hc. destruct Hc as [H39 H34].
      apply negb_true_iff, N.eqb_neq in H10, H39, H34. now repeat split.
  - destruct (first_NAME lines) as [name|].
    + destruct IH as (before & line & after & -> & Hb & Hl & Hn & Hc).
      exists (l :: before), line, after. repeat split; auto.
    + now constructor.
Qed.

(** The start of [pre_check] when the monitor runs Falco itself. *)
Lemma pre_check_self_managed (w : World) (st : State) :
  external_falco st = false ->
  pre_check w st =
  bind (check_requirements w)
       (fun _ => bind (prepare_docker w) (fun _ => probe_device w)) st.
Proof.
  intros H. unfold pre_check, is_external_falco, get.
  unfold bind at 1. now rewrite H.
Qed.

Lemma pre_check_after_requirements (w : World) (st st1 : State) :
  external_falco st = false ->
  check_requirements w st = (Ok tt, st1) ->
  pre_check w st = bind (prepare_docker w) (fun _ => probe_device w) st1.
Proof.
  intros H H1. rewrite pre_check_self_managed by assumption.
  unfold bind at 1. now rewrite H1.
Qed.

(** X2: outside a container, when [/etc/os-release] has no line starting
    with [NAME=], [pre_check] raises [TypeError] (the membership test on
    [None]) after its three first calls: not a [DagdaError], and neither
    package manager is queried. *)
Theorem os_release_without_NAME (w : World) (st : State) (os_release : str) :
  external_falco st = false ->
  etc_os_release w = Ok os_release ->
  first_NAME (readlines (N.eqb LF) os_release) = None ->
  isfile w (lit "/.dockerenv") = false ->
  pre_check w st = (Raise TypeError, after_calls st requirement_calls).
Proof.
  intros Hext Hfile Hname Hdocker.
  rewrite pre_check_self_managed by assumption.
  unfold check_requirements, _get_linux_distro, or_else, in_distro,
    bind, get, call, lift, ret, raise.
  rewrite Hfile, Hname. cbn. rewrite Hdocker. cbn.
  now rewrite !after_calls_app.
Qed.

Lemma os_release_without_NAME_witness :
  fst (pre_check
         (machine (Ok (text "ID=alpine|VERSION_ID=3.19|")) (Ok 0%Z)
            false true true [] [] (fun _ => []))
         self_managed)
  = Raise TypeError.
Proof.
  refine (f_equal fst
    (os_release_without_NAME
       (machine (Ok (text "ID=alpine|VERSION_ID=3.19|")) (Ok 0%Z)
          false true true [] [] (fun _ => []))
       self_managed (text "ID=alpine|VERSION_ID=3.19|") _ _ _ _));
    vm_compute; reflexivity.
Defined.

(** X3: inside a container ([/.dockerenv] exists) [pre_check] never tests
    the distribution name nor queries a package manager, whatever
    [/etc/os-release] holds: it logs one warning and goes on with the
    Docker driver. *)
Theorem inside_container_skips_headers (w : World) (st : State)
    (os_release : str) :
  external_falco st = false ->
  etc_os_release w = Ok os_release ->
  isfile w (lit "/.dockerenv") = true ->
  pre_check w st =
  bind (prepare_docker w) (fun _ => probe_device w)
    (after_calls st (requirement_calls ++ [LoggerWarning docker_warning])).
Proof.
  intros Hext Hfile Hdocker.
  apply pre_check_after_requirements; [assumption|].
  unfold check_requirements, _get_linux_distro, bind, get, call, lift, ret.
  rewrite Hfile. cbn. rewrite Hdocker. cbn.
  now rewrite !after_calls_app.
Qed.

Lemma inside_container_skips_headers_witness :
  trace (snd (pre_check
                (machine (Ok (text "ID=alpine|VERSION_ID=3.19|")) (Ok 1%Z)
                   true true false [] [] (fun _ => []))
                self_managed))
  = requirement_calls ++ [LoggerWarning docker_warning; DockerGetClient].
Proof.
  rewrite (inside_container_skips_headers
             (machine (Ok (text "ID=alpine|VERSION_ID=3.19|")) (Ok 1%Z)
                true true false [] [] (fun _ => []))
             self_managed (text "ID=alpine|VERSION_ID=3.19|")
             eq_refl eq_refl eq_refl).
  vm_compute. reflexivity.
Defined.

(** X4: on a host whose name holds [Red Hat], [CentOS], [Fedora] or
    [openSUSE], [pre_check] queries [rpm -q kernel-devel-<release>] and
    never [dpkg], also when the name holds [Debian] or [Ubuntu] as well; a
    return code other than 0 raises the error about the kernel headers,
    the return code 0 lets [pre_check] go on with the Docker driver. *)
Theorem rpm_family_queries_rpm
    (w : World) (st : State) (os_release distro : str) (return_code : Z) :
  external_falco st = false ->
  etc_os_release w = Ok os_release ->
  first_NAME (readlines (N.eqb LF) os_release) = Some distro ->
  isfile w (lit "/.dockerenv") = false ->
  contains distro (lit "Red Hat") || contains distro (lit "CentOS")
  || contains distro (lit "Fedora") || contains distro (lit "openSUSE")
  = true ->
  subprocess_call w [lit "rpm"; lit "-q"; lit "kernel-devel-" ++ uname_release w]
  = Ok return_code ->
  let calls :=
    requirement_calls
    ++ [SubprocessCall
          [lit "rpm"; lit "-q"; lit "kernel-devel-" ++ uname_release w]] in
  pre_check w st =
  if Z.eqb return_code 0
  then bind (prepare_docker w) (fun _ => probe_device w) (after_calls st calls)
  else (Raise headers_error, after_calls st calls).
Proof.
  intros Hext Hfile Hname Hdocker Hrpm Hcall calls.
  assert (Hreq : check_requirements w st =
                 if Z.eqb return_code 0
                 then (Ok tt, after_calls st calls)
                 else (Raise headers_error, after_calls st calls)).
  { unfold check_requirements, _get_linux_distro, or_else, in_distro,
      bind, get, call, lift, ret, raise.
    rewrite Hfile, Hname. cbn. rewrite Hdocker. cbn.
    destruct (contains distro (lit "Red Hat")); cbn in Hrpm |- *;
      [|destruct (contains distro (lit "CentOS")); cbn in Hrpm |- *;
        [|destruct (contains distro (lit "Fedora")); cbn in Hrpm |- *;
          [|rewrite Hrpm]]];
      rewrite Hcall; destruct (Z.eqb return_code 0); cbn;
      now rewrite !after_calls_app. }
  rewrite pre_check_self_managed by assumption.
  unfold bind at 1. rewrite Hreq. now destruct (Z.eqb return_code 0).
Qed.

Lemma rpm_family_queries_rpm_witness :
  pre_check
    (machine (Ok (text "NAME='Red Hat Enterprise Linux (Ubuntu build host)'|"))
       (Ok 1%Z) false true true [] [] (fun _ => []))
    self_managed
  = (Raise headers_error,
     after_calls self_managed
       (requirement_calls
        ++ [SubprocessCall
              [lit "rpm"; lit "-q";
               lit "kernel-devel-5.14.0-362.el9.x86_64"]])).
Proof.
  refine (rpm_family_queries_rpm
            (machine
               (Ok (text "NAME='Red Hat Enterprise Linux (Ubuntu build host)'|"))
               (Ok 1%Z) false true true [] [] (fun _ => []))
            self_managed _ _ 1%Z _ _ _ _ _ _);
    vm_compute; reflexivity.
Defined.

(** X5: when the host checks pass and the Docker driver has no client,
    [pre_check] raises its error right after asking for the client: no
    image is pulled, no container is stopped, removed or created and the
    events are not deleted. *)
Theorem no_docker_client_stops_pre_check (w : World) (st st1 : State) :
  external_falco st = false ->
  check_requirements w st = (Ok tt, st1) ->
  docker_client w = false ->
  pre_check w st =
  (Raise (DagdaError (lit "Error while fetching Docker server API version.")),
   after_calls st1 [DockerGetClient]).
Proof.
  intros Hext Hreq Hclient.
  rewrite (pre_check_after_requirements w st st1 Hext Hreq).
  unfold prepare_docker, bind, call, raise. now rewrite Hclient.
Qed.

Lemma no_docker_client_stops_pre_check_witness :
  fst (pre_check
         (machine (Ok (text "NAME='Ubuntu'|")) (Ok 0%Z)
            false true false [lit "0ld"] [] (fun _ => []))
         self_managed)
  = Raise (DagdaError (lit "Error while fetching Docker server API version.")).
Proof.
  refine (f_equal fst
    (no_docker_client_stops_pre_check
       (machine (Ok (text "NAME='Ubuntu'|")) (Ok 0%Z)
          false true false [lit "0ld"] [] (fun _ => []))
       self_managed _ _ _ _));
    vm_compute; reflexivity.
Defined.

Lemma stop_and_remove_calls (container_ids : list str) :
  forall st,
    stop_and_remove container_ids st
    = (Ok tt, after_calls st (cleanup_calls container_ids)).
Proof.
  induction container_ids as [|id ids IH]; intros st.
  - simpl. unfold ret. now rewrite after_calls_nil.
  - cbn [stop_and_remove]. unfold bind, call. rewrite IH.
    now rewrite !after_calls_app.
Qed.

(** X6: with a Docker client, [pre_check] pulls the image, then stops and
    removes every container of the Falco image, each one stopped before it
    is removed and in the order the driver lists them, then deletes the
    stored events, and only then starts the probe container. *)
Theorem pre_check_cleans_up_before_probe (w : World) (st st1 : State) :
  external_falco st = false ->
  check_requirements w st = (Ok tt, st1) ->
  docker_client w = true ->
  pre_check w st =
  probe_device w
    (after_calls st1
       ([DockerGetClient;
         DockerPull (lit "falcosecurity/falco") (lit "0.29.0");
         DockerContainerIdsByImageName falco_image]
        ++ cleanup_calls (docker_container_ids_by_image_name w falco_image)
        ++ [DeleteFalcoEventsCollection])).
Proof.
  intros Hext Hreq Hclient.
  rewrite (pre_check_after_requirements w st st1 Hext Hreq).
  unfold prepare_docker, bind, call, raise, ret. rewrite Hclient. cbn [negb].
  assert (Hc : forall s,
    (if (0 <? List.length (docker_container_ids_by_image_name w falco_image))%nat
     then stop_and_remove (docker_container_ids_by_image_name w falco_image)
     else fun st0 => (Ok tt, st0)) s
    = (Ok tt, after_calls s
         (cleanup_calls (docker_container_ids_by_image_name w falco_image)))).
  { intros s.
    destruct (docker_container_ids_by_image_name w falco_image) as [|id ids].
    - simpl. now rewrite after_calls_nil.
    - cbn [List.length Nat.ltb Nat.leb]. apply stop_and_remove_calls. }
  rewrite Hc. now rewrite !after_calls_app.
Qed.

Lemma pre_check_cleans_up_before_probe_witness :
  trace (snd (pre_check
                (machine (Ok (text "NAME='Ubuntu'|")) (Ok 0%Z)
                   true true true [lit "0ld"; lit "0lder"] []
                   (fun _ => []))
                self_managed))
  = requirement_calls
    ++ [LoggerWarning docker_warning; DockerGetClient;
        DockerPull (lit "falcosecurity/falco") (lit "0.29.0");
        DockerContainerIdsByImageName falco_image;
        DockerStop (lit "0ld"); DockerRemoveContainer (lit "0ld");
        DockerStop (lit "0lder"); DockerRemoveContainer (lit "0lder");
        DeleteFalcoEventsCollection]
    ++ probe_calls (lit "c0ffee")
    ++ [DockerStop (lit "c0ffee"); DockerRemoveContainer (lit "c0ffee")].
Proof.
  erewrite (pre_check_cleans_up_before_probe
              (machine (Ok (text "NAME='Ubuntu'|")) (Ok 0%Z)
                 true true true [lit "0ld"; lit "0lder"] [] (fun _ => []))
              self_managed);
    [| reflexivity | vm_compute; reflexivity | reflexivity].
  vm_compute. reflexivity.
Defined.

(** The calls of the host checks stay on the host. *)
Lemma check_requirements_calls (w : World) (st : State) :
  exists calls,
    snd (check_requirements w st) = after_calls st calls /\
    Forall (fun a => is_host_call a = true) calls.
Proof.
  assert (Hsub : forall argv st0 calls,
    Forall (fun a => is_host_call a = true) calls ->
    exists calls',
      snd (let (r, st') := (lift (subprocess_call w argv))
                             (after_calls (after_calls st0 calls)
                                [SubprocessCall argv]) in
           match r with
           | Ok return_code =>
               (if negb (Z.eqb return_code 0)
                then raise headers_error else ret tt) st'
           | Raise e => (Raise e, st')
           end)
      = after_calls st0 calls' /\
      Forall (fun a => is_host_call a = true) calls').
  { intros argv st0 calls Hc. unfold lift.
    destruct (subprocess_call w argv) as [rc|e];
      [destruct (Z.eqb rc 0)|]; cbn; rewrite after_calls_app;
      (eexists; split; [reflexivity|]);
      (apply Forall_app; split; [exact Hc | repeat constructor]). }
  unfold check_requirements, _get_linux_distro, or_else, in_distro,
    bind, get, call, lift, ret, raise.
  destruct (etc_os_release w) as [os_release|e]; cbn;
    [|eexists; split; [reflexivity | repeat constructor]].
  rewrite !after_calls_app. cbn [app].
  destruct (isfile w (lit "/.dockerenv")); cbn;
    [rewrite after_calls_app; eexists; split;
       [reflexivity | repeat constructor]|].
  destruct (first_NAME (readlines (N.eqb LF) os_release)) as [distro|]; cbn;
    [|eexists; split; [reflexivity | repeat constructor]].
  destruct (contains distro (lit "Red Hat")); cbn;
    [apply Hsub; repeat constructor|].
  destruct (contains distro (lit "CentOS")); cbn;
    [apply Hsub; repeat constructor|].
  destruct (contains distro (lit "Fedora")); cbn;
    [apply Hsub; repeat constructor|].
  destruct (contains distro (lit "openSUSE")); cbn;
    [apply Hsub; repeat constructor|].
  destruct (contains distro (lit "Debian")); cbn;
    [apply Hsub; repeat constructor|].
  destruct (contains distro (lit "Ubuntu")); cbn;
    [apply Hsub; repeat constructor|].
  eexists; split; [reflexivity | repeat constructor].
Qed.

(** X7: whatever [pre_check] does beyond the host (a pull, a stop, a
    removal, the deletion of the events, the creation or start of a
    container, the reading of logs, a sleep), it does only after the host
    checks have passed and a Docker client was found. *)
Theorem docker_is_touched_only_after_checks (w : World) (st : State)
    (calls : list action) (a : action) :
  external_falco st = false ->
  trace (snd (pre_check w st)) = trace st ++ calls ->
  In a calls ->
  is_host_call a = false ->
  a <> DockerGetClient ->
  fst (check_requirements w st) = Ok tt /\ docker_client w = true.
Proof.
  intros Hext Htrace Hin Hhost Hget.
  destruct (check_requirements_calls w st) as [c [Hc Hall]].
  rewrite pre_check_self_managed in Htrace by assumption.
  unfold bind at 1 in Htrace.
  destruct (check_requirements w st) as [[[]|e] st1] eqn:Hreq;
    cbn [snd] in Hc; subst st1.
  - split; [reflexivity|].
    destruct (docker_client w) eqn:Hclient; [reflexivity|].
    unfold prepare_docker, bind, call, raise in Htrace.
    rewrite Hclient in Htrace. cbn in Htrace.
    rewrite <- app_assoc in Htrace. apply app_inv_head in Htrace. subst calls.
    apply in_app_or in Hin. destruct Hin as [Hin | [<- | []]].
    + rewrite Forall_forall in Hall. rewrite (Hall a Hin) in Hhost.
      discriminate Hhost.
    + contradiction.
  - cbn in Htrace. apply app_inv_head in Htrace. subst calls.
    rewrite Forall_forall in Hall. rewrite (Hall a Hin) in Hhost.
    discriminate Hhost.
Qed.

Lemma docker_is_touched_only_after_checks_witness :
  fst (check_requirements
         (machine (Ok (text "NAME='Ubuntu'|")) (Ok 0%Z)
            false true true [] device_error (fun _ => []))
         self_managed) = Ok tt /\
  docker_client
    (machine (Ok (text "NAME='Ubuntu'|")) (Ok 0%Z)
       false true true [] device_error (fun _ => [])) = true.
Proof.
  refine (docker_is_touched_only_after_checks
            (machine (Ok (text "NAME='Ubuntu'|")) (Ok 0%Z)
               false true true [] device_error (fun _ => []))
            self_managed _ DeleteFalcoEventsCollection eq_refl _ _ _ _).
  - vm_compute. reflexivity.
  - vm_compute. tauto.
  - reflexivity.
  - discriminate.
Defined.

(** X8: once [pre_check] has started its probe container,
    [get_running_container_id] answers with the id of that container, also
    when [pre_check] returned and the container has been removed by its
    last call. *)
Theorem pre_check_keeps_probe_container_id (w : World) (st st1 st2 : State) :
  external_falco st = false ->
  check_requirements w st = (Ok tt, st1) ->
  prepare_docker w st1 = (Ok tt, st2) ->
  get_running_container_id (snd (pre_check w st))
  = (Ok (created_container_id w), snd (pre_check w st)) /\
  (contains (docker_logs w (created_container_id w)) device_error = false ->
   exists calls,
     trace (snd (pre_check w st))
     = calls ++ [DockerRemoveContainer (created_container_id w)]).
Proof.
  intros Hext Hreq Hprep.
  pose proof (prepare_docker_client w st1 st2 Hprep) as Hclient.
  assert (Hpre : pre_check w st = probe_device w st2).
  { rewrite (pre_check_after_requirements w st st1 Hext Hreq).
    unfold bind at 1. now rewrite Hprep. }
  rewrite Hpre.
  unfold get_running_container_id, probe_device, _start_container,
    set_running_container_id, bind, get, call, ret, raise.
  rewrite Hclient. cbn.
  destruct (contains (docker_logs w (created_container_id w)) device_error);
    cbn; (split; [reflexivity|]); intros H; [discriminate H|].
  eexists. rewrite ?app_assoc. reflexivity.
Qed.

Lemma pre_check_keeps_probe_container_id_witness :
  fst (bind (pre_check (host "Ubuntu" 0 false (lit "Falco initialized")))
            (fun _ => get_running_container_id) self_managed)
  = Ok (lit "c0ffee") /\
  last (trace (snd (pre_check (host "Ubuntu" 0 false (lit "Falco initialized"))
                      self_managed))) Uname
  = DockerRemoveContainer (lit "c0ffee").
Proof.
  pose proof (pre_check_keeps_probe_container_id
                (host "Ubuntu" 0 false (lit "Falco initialized"))
                self_managed _ _ eq_refl eq_refl eq_refl) as [H _].
  split; [|vm_compute; reflexivity].
  unfold bind.
  destruct (pre_check (host "Ubuntu" 0 false (lit "Falco initialized"))
              self_managed) as [[[]|e] st'] eqn:E.
  - cbn [snd] in H. now rewrite H.
  - vm_compute in E. discriminate E.
Defined.

Lemma log_warnings_calls (messages : list str) :
  forall st,
    log_warnings messages st
    = (Ok tt, after_calls st (List.map LoggerWarning messages)).
Proof.
  induction messages as [|m ms IH]; intros st.
  - simpl. unfold ret. now rewrite after_calls_nil.
  - cbn [log_warnings List.map]. unfold bind, call. rewrite IH.
    now rewrite after_calls_app.
Qed.

(** [run] up to the test of the output file, when the monitor starts
    Falco itself. *)
Lemma run_self_managed (w : World) (cycles : nat) (st : State) :
  external_falco st = false ->
  docker_client w = true ->
  run w cycles st =
  let st1 := after_calls (started w st)
               (start_calls w st ++ [IsFile (falco_output_filename st)]) in
  if isfile w (falco_output_filename st) then
    let st2 := after_calls st1 [DockerContainerIdsByImageName falco_image] in
    if Nat.eqb (List.length (docker_container_ids_by_image_name w falco_image)) 0
    then (Raise output_error, st2)
    else
      tail_loop w (falco_output_filename st) 0 cycles 0
        (after_calls st2
           ([DockerLogs (created_container_id w) true true false]
            ++ startup_warnings w
            ++ [OpenFile (falco_output_filename st)]))
  else (Raise output_error, st1).
Proof.
  intros Hext Hclient.
  unfold run, is_external_falco, _start_container, set_running_container_id,
    _parse_log_and_show_dagda_warnings, startup_warnings, started,
    start_calls, falco_command, output_error, bind, get, call, ret, raise.
  rewrite Hext, Hclient. cbn.
  destruct (isfile w (falco_output_filename st));
    repeat (progress (rewrite ?Hext; cbn));
    [|unfold after_calls; cbn; now rewrite <- !app_assoc].
  destruct (Nat.eqb (List.length
                       (docker_container_ids_by_image_name w falco_image)) 0);
    repeat (progress (rewrite ?Hext; cbn));
    [unfold after_calls; cbn; now rewrite <- !app_assoc|].
  destruct (contains (docker_logs w (created_container_id w)) (lit "Rule "));
    repeat (progress (rewrite ?Hext; cbn)).
  - rewrite log_warnings_calls. cbn. f_equal.
    unfold after_calls. cbn. now rewrite <- !app_assoc.
  - f_equal. unfold after_calls. cbn. now rewrite <- !app_assoc.
Qed.

(** X9: when [run] has started Falco and the output file is not there
    three seconds later, or no container of the Falco image is listed, it
    raises the error about the output file; the container it started is
    neither stopped nor removed, its logs are not read, and in the first
    case the containers are not even listed. *)
Theorem run_fails_when_output_is_missing (w : World) (cycles : nat)
    (st : State) :
  external_falco st = false ->
  docker_client w = true ->
  (isfile w (falco_output_filename st) = false ->
   run w cycles st =
   (Raise output_error,
    after_calls (started w st)
      (start_calls w st ++ [IsFile (falco_output_filename st)]))) /\
  (isfile w (falco_output_filename st) = true ->
   docker_container_ids_by_image_name w falco_image = [] ->
   run w cycles st =
   (Raise output_error,
    after_calls (started w st)
      (start_calls w st
       ++ [IsFile (falco_output_filename st);
           DockerContainerIdsByImageName falco_image]))).
Proof.
  intros Hext Hclient.
  rewrite (run_self_managed w cycles st Hext Hclient). cbv zeta.
  split.
  - now intros ->.
  - intros -> ->. cbn [List.length Nat.eqb].
    now rewrite after_calls_app, <- app_assoc.
Qed.

Lemma run_fails_when_output_is_missing_witness :
  run (machine (Ok []) (Ok 0%Z) false false true [lit "c0ffee"] []
         (fun _ => []))
      5 self_managed
  = (Raise output_error,
     after_calls
       (started (machine (Ok []) (Ok 0%Z) false false true [lit "c0ffee"] []
                   (fun _ => []))
                self_managed)
       [DockerGetClient;
        DockerCreateContainer falco_image
          (Some (lit "falco -pc -o json_output=true -o file_output.enabled=true -o file_output.filename=/host/tmp/falco_output.json"))
          falco_volumes falco_binds true;
        DockerStart (lit "c0ffee"); Sleep 3;
        IsFile (lit "/tmp/falco_output.json")]).
Proof.
  exact (proj1 (run_fails_when_output_is_missing
                  (machine (Ok []) (Ok 0%Z) false false true [lit "c0ffee"] []
                     (fun _ => []))
                  5 self_managed eq_refl eq_refl) eq_refl).
Defined.

(** X10: [run] does not test the Docker client the way [pre_check] does:
    without a client it raises [AttributeError] from [_start_container],
    having made no call but the one for the client. *)
Theorem run_without_docker_client (w : World) (cycles : nat) (st : State) :
  external_falco st = false ->
  docker_client w = false ->
  run w cycles st = (Raise AttributeError, after_calls st [DockerGetClient]).
Proof.
  intros Hext Hclient.
  unfold run, is_external_falco, _start_container, bind, get, call, raise.
  now rewrite Hext, Hclient.
Qed.

Lemma run_without_docker_client_witness :
  run (machine (Ok []) (Ok 0%Z) false true false [] [] (fun _ => []))
      3 self_managed
  = (Raise AttributeError, after_calls self_managed [DockerGetClient]).
Proof.
  exact (run_without_docker_client
           (machine (Ok []) (Ok 0%Z) false true false [] [] (fun _ => []))
           3 self_managed eq_refl eq_refl).
Defined.

(** X11: when Falco comes up, [run] starts the container with the output
    file and the rules option on its command line, sleeps three seconds,
    tests the file, lists the containers, reads the logs once, shows their
    warnings if they hold [Rule ], opens the output file and enters the
    tailing loop at offset 0 of the first pass. *)
Theorem run_starts_then_tails (w : World) (cycles : nat) (st : State) :
  external_falco st = false ->
  docker_client w = true ->
  isfile w (falco_output_filename st) = true ->
  docker_container_ids_by_image_name w falco_image <> [] ->
  run w cycles st =
  tail_loop w (falco_output_filename st) 0 cycles 0
    (after_calls (started w st)
       (start_calls w st
        ++ [IsFile (falco_output_filename st);
            DockerContainerIdsByImageName falco_image;
            DockerLogs (created_container_id w) true true false]
        ++ startup_warnings w
        ++ [OpenFile (falco_output_filename st)])).
Proof.
  intros Hext Hclient Hfile Hids.
  rewrite (run_self_managed w cycles st Hext Hclient). cbv zeta.
  rewrite Hfile.
  destruct (docker_container_ids_by_image_name w falco_image) as [|id ids];
    [contradiction|].
  cbn [List.length Nat.eqb]. rewrite !after_calls_app.
  now rewrite <- !app_assoc.
Qed.

Lemma run_starts_then_tails_witness :
  trace (snd (run (machine (Ok []) (Ok 0%Z) false true true [lit "c0ffee"]
                     (text "Rule A: warning|  unknown macro|Rule B: warning|")
                     (fun _ => scenario_file))
                2 self_managed))
  = [DockerGetClient;
     DockerCreateContainer falco_image
       (Some (lit "falco -pc -o json_output=true -o file_output.enabled=true -o file_output.filename=/host/tmp/falco_output.json"))
       falco_volumes falco_binds true;
     DockerStart (lit "c0ffee"); Sleep 3;
     IsFile (lit "/tmp/falco_output.json");
     DockerContainerIdsByImageName falco_image;
     DockerLogs (lit "c0ffee") true true false;
     Now; LoggerWarning (lit "Rule A: warning unknown macro");
     OpenFile (lit "/tmp/falco_output.json");
     BulkInsertSysdigFalcoEvents [nginx_event]; Sleep 2; Sleep 2].
Proof.
  rewrite (run_starts_then_tails
             (machine (Ok []) (Ok 0%Z) false true true [lit "c0ffee"]
                (text "Rule A: warning|  unknown macro|Rule B: warning|")
                (fun _ => scenario_file))
             2 self_managed eq_refl eq_refl eq_refl);
    [vm_compute; reflexivity | discriminate].
Defined.

(** What a line adds does not depend on the events gathered before it. *)
Lemma process_line_from_nil (events : list dict) (line : bytes) :
  match process_line [] line with
  | Ok new =>
      process_line events line = Ok (events ++ new) /\
      (List.length new <= 1)%nat
  | Raise e => process_line events line = Raise e
  end.
Proof.
  unfold process_line.
  destruct (Utf8.decode line) as [s|e]; cbn [rbind]; [|reflexivity].
  destruct (Json.loads (replace s [LF] [])) as [json_data|e]; cbn [rbind];
    [|reflexivity].
  destruct (getitem json_data (lit "output_fields")) as [output_fields|e];
    cbn [rbind]; [|reflexivity].
  destruct (getitem output_fields (lit "container.id")) as [container_id|e];
    cbn [rbind]; [|reflexivity].
  destruct (negb (eq_str container_id (lit "host")));
    [|rewrite app_nil_r; split; [reflexivity | simpl; lia]].
  destruct (build_falco_event json_data container_id) as [falco_event|[]];
    try reflexivity;
    try (rewrite app_nil_r; split; [reflexivity | simpl; lia]).
  split; [reflexivity | simpl; lia].
Qed.

Lemma process_lines_app (content1 content2 : list bytes) :
  forall events,
    process_lines events (content1 ++ content2) =
    rbind (process_lines events content1)
          (fun events' => process_lines events' content2).
Proof.
  induction content1 as [|line content1 IH]; intros events; [reflexivity|].
  cbn [process_lines app].
  destruct (process_line events line) as [events'|e]; cbn [rbind];
    [apply IH | reflexivity].
Qed.

(** X12: within a pass the events already gathered are kept as they are:
    the lines append to them what they would yield on their own, at most
    one event per line, and whether the pass raises does not depend on
    them. *)
Theorem process_lines_appends (content : list bytes) :
  forall events,
    match process_lines [] content with
    | Ok new =>
        process_lines events content = Ok (events ++ new) /\
        (List.length new <= List.length content)%nat
    | Raise e => process_lines events content = Raise e
    end.
Proof.
  induction content as [|line content IH]; intros events.
  - simpl. rewrite app_nil_r. split; [reflexivity | lia].
  - cbn [process_lines].
    pose proof (process_line_from_nil events line) as Hl.
    destruct (process_line [] line) as [new1|e]; cbn [rbind].
    + destruct Hl as [-> Hlen]. cbn [rbind].
      pose proof (IH new1) as H1. pose proof (IH (events ++ new1)) as H2.
      destruct (process_lines [] content) as [new|e].
      * destruct H1 as [-> Hn]. destruct H2 as [-> _].
        rewrite app_assoc. split; [reflexivity|].
        rewrite length_app. simpl. lia.
      * now rewrite H1, H2.
    + now rewrite Hl.
Qed.

(** X14: the lines a pass reads, put end to end, are the bytes after the
    cursor: none is lost or read twice.  No line is empty, a newline
    occurs only as the last byte of a line, and every line but the last
    ends with one. *)
Theorem readlines_keeps_every_element {A : Type} (is_newline : A -> bool)
    (s : list A) :
  List.concat (readlines is_newline s) = s /\
  Forall (fun l => l <> [] /\
                   Forall (fun x => is_newline x = false) (removelast l))
         (readlines is_newline s) /\
  Forall (fun l => exists body c, l = body ++ [c] /\ is_newline c = true)
         (removelast (readlines is_newline s)).
Proof.
  split; [apply readlines_concat|].
  induction s as [|c s [IH1 IH2]]; [split; constructor|].
  cbn [readlines]. destruct (is_newline c) eqn:E.
  - split.
    + constructor; [|exact IH1]. split; [discriminate | constructor].
    + destruct (readlines is_newline s) as [|l ls] eqn:R; [constructor|].
      change (removelast ([c] :: l :: ls)) with ([c] :: removelast (l :: ls)).
      constructor; [|exact IH2]. now exists [], c.
  - destruct (readlines is_newline s) as [|l ls] eqn:R.
    + split; [|constructor].
      constructor; [|constructor]. split; [discriminate | constructor].
    + inversion IH1 as [|? ? [Hne Hb] Hrest]; subst. split.
      * constructor; [|exact Hrest]. split; [discriminate|].
        destruct l as [|x l']; [contradiction|].
        change (removelast (c :: x :: l')) with (c :: removelast (x :: l')).
        now constructor.
      * destruct ls as [|l2 ls']; [constructor|].
        change (removelast ((c :: l) :: l2 :: ls'))
          with ((c :: l) :: removelast (l2 :: ls')).
        change (removelast (l :: l2 :: ls'))
          with (l :: removelast (l2 :: ls')) in IH2.
        inversion IH2 as [|? ? (body & x & -> & Hx) Hr]; subst.
        constructor; [|exact Hr]. now exists (c :: body), x.
Qed.

(** X15: a pass that starts at the end of what was there before sees only
    what was appended: its events are those of the appended bytes read
    from their start, and its cursor is shifted by the length of the old
    content. *)
Theorem tail_cycle_reads_only_appended (old new : bytes) :
  tail_cycle (old ++ new) (List.length old) =
  match tail_cycle new 0 with
  | Ok (position, events) => Ok ((List.length old + position)%nat, events)
  | Raise e => Raise e
  end.
Proof.
  unfold tail_cycle. rewrite skipn_app, skipn_all, Nat.sub_diag.
  cbn [skipn app].
  destruct (process_lines [] (readlines is_LF_byte new)); reflexivity.
Qed.

Lemma pass_calls_ok (events : list dict) :
  Forall batch_ok (pass_calls events) /\
  List.length (List.filter is_sleep (pass_calls events)) = 1%nat.
Proof.
  unfold pass_calls. destruct events as [|e es]; cbn.
  - split; [repeat constructor | reflexivity].
  - split; [|reflexivity]. constructor; [discriminate|]. repeat constructor.
Qed.

(** X16: the tailing loop calls nothing but [bulk_insert] with a
    non-empty list of events and [time.sleep(2)], and it sleeps once per
    pass it completes: as many times as passes observed when no pass
    raised, fewer otherwise. *)
Theorem tail_loop_batches (w : World) (path : str) (cycles : nat) :
  forall cycle position st,
  exists calls,
    snd (tail_loop w path cycle cycles position st) = after_calls st calls /\
    Forall batch_ok calls /\
    match fst (tail_loop w path cycle cycles position st) with
    | Ok _ => List.length (List.filter is_sleep calls) = cycles
    | Raise _ => (List.length (List.filter is_sleep calls) < cycles)%nat
    end.
Proof.
  induction cycles as [|cycles IH]; intros cycle position st.
  - exists []. simpl. rewrite after_calls_nil. repeat split. constructor.
  - rewrite tail_loop_pass.
    destruct (tail_cycle (file_at_cycle w path cycle) position)
      as [[position' events]|e].
    + destruct (IH (S cycle) position' (after_calls st (pass_calls events)))
        as (calls & Hs & Hok & Hn).
      destruct (pass_calls_ok events) as [Hp H1].
      exists (pass_calls events ++ calls).
      rewrite Hs, after_calls_app. split; [reflexivity|]. split.
      * apply Forall_app. now split.
      * rewrite filter_app, length_app, H1.
        destruct (fst (tail_loop w path (S cycle) cycles position'
                         (after_calls st (pass_calls events)))); lia.
    + exists []. simpl. rewrite after_calls_nil.
      repeat split; [constructor | lia].
Qed.

(** X17: when a line of a pass raises, the loop ends with that exception
    without a single call: the events of the lines read before it in the
    same pass are not inserted. *)
Theorem raising_line_loses_the_pass (w : World) (path : str)
    (cycle cycles position : nat) (st : State)
    (before after : list bytes) (bad : bytes) (events : list dict) (e : exn) :
  readlines is_LF_byte (skipn position (file_at_cycle w path cycle))
  = before ++ bad :: after ->
  process_lines [] before = Ok events ->
  process_line events bad = Raise e ->
  tail_loop w path cycle (S cycles) position st = (Raise e, st).
Proof.
  intros Hread Hbefore Hbad.
  rewrite tail_loop_pass. unfold tail_cycle.
  rewrite Hread, process_lines_app, Hbefore. cbn [rbind process_lines].
  now rewrite Hbad.
Qed.

Lemma raising_line_loses_the_pass_witness :
  tail_loop
    (machine (Ok []) (Ok 0%Z) false true true [] []
       (fun _ => json_line nginx_record ++ [x0a]
                 ++ json_line truncated_record))
    [] 0 3 0 externally_managed
  = (Raise JSONDecodeError, externally_managed).
Proof.
  refine (raising_line_loses_the_pass
            (machine (Ok []) (Ok 0%Z) false true true [] []
               (fun _ => json_line nginx_record ++ [x0a]
                         ++ json_line truncated_record))
            [] 0 2 0 externally_managed
            [json_line nginx_record ++ [x0a]] []
            (json_line truncated_record) [nginx_event] JSONDecodeError
            _ _ _);
    vm_compute; reflexivity.
Defined.

(** X18: the classifier never logs more warnings than the text has lines
    that start a rule. *)
Theorem warnings_at_most_rule_lines (today : weekday)
    (sysdig_falco_logs : str) :
  (List.length (parse_log_and_show_dagda_warnings today sysdig_falco_logs)
   <= List.length (List.filter starts_rule (split LF sysdig_falco_logs)))%nat.
Proof.
  destruct (List.filter starts_rule (split LF sysdig_falco_logs))
    as [|r rules] eqn:E.
  - rewrite no_rule_line_no_warning; [simpl; lia|].
    apply Forall_forall. intros line Hin.
    destruct (starts_rule line) eqn:Er; [|reflexivity].
    assert (H : In line (List.filter starts_rule (split LF sysdig_falco_logs)))
      by (apply filter_In; now split).
    rewrite E in H. contradiction.
  - unfold parse_log_and_show_dagda_warnings.
    destruct (classify_from_any (date_prefix today)
                (split LF sysdig_falco_logs) [])
      as (preamble & ws & -> & Hp & Hws).
    rewrite rule_lines_date_prefix, E in Hws.
    apply Forall2_length in Hws.
    rewrite removelast_firstn_len, length_firstn, length_map in Hws.
    rewrite length_app. unfold str, char in *. simpl in *. lia.
Qed.

(** X19: the external flag and the name of the output file are shared by
    all monitors: a monitor built without external output after one built
    with it still finds the flag set and the external name, and its
    [pre_check] does nothing. *)
Theorem external_flag_is_sticky (w : World) (rules1 rules2 : option str)
    (path : str) (st : State) :
  let st' := snd (init rules2 None (snd (init rules1 (Some path) st))) in
  external_falco st' = true /\
  falco_output_filename st' = path /\
  pre_check w st' = (Ok tt, st').
Proof.
  cbv zeta.
  assert (H : external_falco
                (snd (init rules2 None (snd (init rules1 (Some path) st))))
              = true) by (now destruct rules1, rules2).
  split; [exact H|]. split; [now destruct rules1, rules2|].
  unfold pre_check, is_external_falco, bind, get. now rewrite H.
Qed.

Lemma keeps_ret {A : Type} (a : A) : keeps_configuration (ret a).
Proof. intros st. repeat split. exists []. simpl. now rewrite app_nil_r. Qed.

Lemma keeps_raise {A : Type} (e : exn) : keeps_configuration (@raise A e).
Proof. intros st. repeat split. exists []. simpl. now rewrite app_nil_r. Qed.

Lemma keeps_lift {A : Type} (r : result A) : keeps_configuration (lift r).
Proof. intros st. repeat split. exists []. simpl. now rewrite app_nil_r. Qed.

Lemma keeps_get {A : Type} (field : State -> A) :
  keeps_configuration (get field).
Proof. intros st. repeat split. exists []. simpl. now rewrite app_nil_r. Qed.

Lemma keeps_call (a : action) : keeps_configuration (call a).
Proof. intros st. repeat split. now exists [a]. Qed.

Lemma keeps_set_running_container_id (id : str) :
  keeps_configuration (set_running_container_id id).
Proof. intros st. repeat split. exists []. simpl. now rewrite app_nil_r. Qed.

Lemma keeps_bind {A B : Type} (m : M A) (k : A -> M B) :
  keeps_configuration m -> (forall a, keeps_configuration (k a)) ->
  keeps_configuration (bind m k).
Proof.
  intros Hm Hk st. unfold bind.
  destruct (Hm st) as (H1 & H2 & H3 & c1 & H4).
  destruct (m st) as [[a|e] st1]; cbn [snd] in *.
  - destruct (Hk a st1) as (K1 & K2 & K3 & c2 & K4).
    rewrite K1, K2, K3, K4, H1, H2, H3, H4. repeat split.
    exists (c1 ++ c2). now rewrite app_assoc.
  - repeat split; try assumption. now exists c1.
Qed.

Lemma keeps_stop_and_remove (container_ids : list str) :
  keeps_configuration (stop_and_remove container_ids).
Proof.
  induction container_ids as [|id ids IH]; cbn [stop_and_remove].
  - apply keeps_ret.
  - apply keeps_bind; [apply keeps_call | intros _].
    apply keeps_bind; [apply keeps_call | intros _; exact IH].
Qed.

Lemma keeps_log_warnings (messages : list str) :
  keeps_configuration (log_warnings messages).
Proof.
  induction messages as [|m ms IH]; cbn [log_warnings].
  - apply keeps_ret.
  - apply keeps_bind; [apply keeps_call | intros _; exact IH].
Qed.

Lemma keeps_tail_loop (w : World) (path : str) (cycles : nat) :
  forall cycle position,
    keeps_configuration (tail_loop w path cycle cycles position).
Proof.
  induction cycles as [|cycles IH]; intros cycle position;
    cbn [tail_loop].
  - apply keeps_ret.
  - apply keeps_bind; [apply keeps_lift | intros [position' events]].
    apply keeps_bind;
      [destruct (0 <? List.length events)%nat;
         [apply keeps_call | apply keeps_ret]
      | intros _].
    apply keeps_bind; [apply keeps_call | intros _; apply IH].
Qed.

Ltac keeps :=
  repeat first
    [ apply keeps_ret | apply keeps_raise | apply keeps_lift
    | apply keeps_get | apply keeps_call
    | apply keeps_set_running_container_id
    | apply keeps_stop_and_remove | apply keeps_log_warnings
    | apply keeps_tail_loop
    | apply keeps_bind; [|intros ?]
    | match goal with
      | |- keeps_configuration (if ?b then _ else _) => destruct b
      | |- keeps_configuration (match ?x with _ => _ end) => destruct x
      end ].

(** X20: [pre_check], [get_running_container_id] and [run] never change
    the rules option, the name of the output file or the external flag,
    whether they return or raise, and they never drop a call made before. *)
Theorem monitor_keeps_configuration (w : World) (cycles : nat) :
  keeps_configuration (pre_check w) /\
  keeps_configuration get_running_container_id /\
  keeps_configuration (run w cycles).
Proof.
  split; [|split].
  - unfold pre_check, check_requirements, prepare_docker, probe_device,
      _get_linux_distro, _start_container, is_external_falco,
      or_else, in_distro.
    keeps.
  - apply keeps_get.
  - unfold run, _start_container, _parse_log_and_show_dagda_warnings,
      is_external_falco.
    keeps.
Qed.

(** X13: when every line of a pass is accepted, the events of the pass
    are those of the lines in the order of the file. *)
Theorem events_are_in_file_order (content : list bytes)
    (news : list (list dict)) :
  Forall2 (fun line new => process_line [] line = Ok new) content news ->
  forall events,
    process_lines events content = Ok (events ++ List.concat news).
Proof.
  induction 1 as [|line new content news Hline _ IH]; intros events.
  - simpl. now rewrite app_nil_r.
  - cbn [process_lines List.concat].
    pose proof (process_line_from_nil events line) as Hl.
    rewrite Hline in Hl. destruct Hl as [-> _]. cbn [rbind].
    rewrite IH. now rewrite app_assoc.
Qed.

Lemma events_are_in_file_order_witness :
  process_lines []
    [json_line nginx_record ++ [x0a]; json_line host_record ++ [x0a];
     json_line old_record ++ [x0a]; json_line nginx_record]
  = Ok [nginx_event; nginx_event].
Proof.
  refine (events_are_in_file_order
            [json_line nginx_record ++ [x0a]; json_line host_record ++ [x0a];
             json_line old_record ++ [x0a]; json_line nginx_record]
            [[nginx_event]; []; []; [nginx_event]] _ []).
  repeat constructor.
Defined.

Lemma classify_lines_dated (prefix : str) (lines : list str) :
  Forall (fun line => startswith line prefix = true) lines ->
  forall warning, classify_lines prefix warning lines = ([], warning).
Proof.
  induction 1 as [|line lines Hline _ IH]; intros warning; [reflexivity|].
  rewrite classify_lines_cons, classify_line_dated by assumption.
  cbn [fst snd app]. now rewrite IH.
Qed.

Lemma contains_startswith (s sub : str) :
  startswith s sub = true -> contains s sub = true.
Proof. intros H. destruct s; cbn [contains]; now rewrite H. Qed.

Lemma contains_infix (a x b : str) : contains (a ++ x ++ b) x = true.
Proof.
  induction a as [|c a IH].
  - cbn [app]. apply contains_startswith. apply startswith_app.
  - cbn [app contains]. rewrite IH. apply orb_true_r.
Qed.

Lemma startswith_prefix (p : str) :
  forall s, startswith s p = true -> exists t, s = p ++ t.
Proof.
  induction p as [|c p IH]; intros s H.
  - now exists s.
  - destruct s as [|d s]; [discriminate H|]. simpl in H.
    apply andb_prop in H. destruct H as [Hc H]. apply N.eqb_eq in Hc.
    destruct (IH s H) as [t ->]. subst d. now exists t.
Qed.

Lemma split_first (sep : char) (s l : str) (ls : list str) :
  split sep s = l :: ls -> exists b, s = l ++ b.
Proof.
  revert l ls. induction s as [|c s IH]; intros l ls H.
  - injection H as <- _. now exists [].
  - cbn [split] in H. destruct (N.eqb c sep).
    + injection H as <- _. now exists (c :: s).
    + destruct (split sep s) as [|l' ls'] eqn:E.
      * injection H as <- _. destruct s; [now exists []|].
        cbn [split] in E. destruct (N.eqb c0 sep); [discriminate E|].
        destruct (split sep s); discriminate E.
      * injection H as <- _. destruct (IH l' ls' eq_refl) as [b ->].
        now exists b.
Qed.

Lemma split_In (sep : char) (s line : str) :
  In line (split sep s) -> exists a b, s = a ++ line ++ b.
Proof.
  induction s as [|c s IH]; intros H.
  - destruct H as [<- | []]. now exists [], [].
  - cbn [split] in H. destruct (N.eqb c sep).
    + destruct H as [<- | H]; [now exists [], (c :: s)|].
      destruct (IH H) as (a & b & ->). now exists (c :: a), b.
    + destruct (split sep s) as [|l ls] eqn:E.
      * destruct H as [<- | []]. exists [], s. now rewrite app_nil_l.
      * destruct H as [<- | H].
        -- destruct (split_first sep s l ls E) as [b ->]. now exists [], b.
        -- destruct (IH (or_intror H)) as (a & b & ->).
           now exists (c :: a), b.
Qed.

Lemma starts_rule_contains (line : str) :
  starts_rule line = true -> exists a b, line = a ++ lit "Rule " ++ b.
Proof.
  unfold starts_rule, strip. intros H.
  destruct (startswith_prefix _ _ H) as [t Ht].
  destruct (lstrip_suffix line) as [p Hp].
  destruct (rstrip_prefix (lstrip line)) as [q Hq].
  exists p, (t ++ q). rewrite Hp at 1. rewrite Hq at 1. rewrite Ht.
  now rewrite <- !app_assoc.
Qed.

(** X21: a text with one rule line, preceded only by lines that begin
    with the weekday prefix, holds [Rule ] (so [run] calls the classifier)
    and yet makes the classifier log nothing. *)
Theorem single_rule_block_logs_nothing (today : weekday)
    (sysdig_falco_logs rule : str) (before after : list str) :
  split LF sysdig_falco_logs = before ++ rule :: after ->
  Forall (fun line => startswith line (date_prefix today) = true) before ->
  starts_rule rule = true ->
  Forall (fun line => starts_rule line = false) after ->
  contains sysdig_falco_logs (lit "Rule ") = true /\
  parse_log_and_show_dagda_warnings today sysdig_falco_logs = [].
Proof.
  intros Hsplit Hbefore Hrule Hafter. split.
  - assert (Hin : In rule (split LF sysdig_falco_logs))
      by (rewrite Hsplit; apply in_elt).
    destruct (split_In LF _ _ Hin) as (a & b & ->).
    destruct (starts_rule_contains rule Hrule) as (p & q & ->).
    replace (a ++ (p ++ lit "Rule " ++ q) ++ b)
      with ((a ++ p) ++ lit "Rule " ++ (q ++ b))
      by (now rewrite <- !app_assoc).
    apply contains_infix.
  - unfold parse_log_and_show_dagda_warnings. rewrite Hsplit.
    rewrite classify_lines_app.
    rewrite (classify_lines_dated _ _ Hbefore). cbn [fst snd app].
    rewrite classify_lines_cons.
    rewrite (classify_line_rule _ [] _
               (starts_rule_not_dated today _ Hrule) Hrule).
    cbn [fst snd truthy app].
    now destruct (classify_lines_no_rule (date_prefix today) _ Hafter
                    (lit " " ++ strip rule)) as [-> _].
Qed.

Lemma single_rule_block_logs_nothing_witness :
  contains (text "Mon Jan  1 10:00:00 2024: Falco initialized|Rule Write below etc: warning (unknown-source):|  macro never used|")
    (lit "Rule ") = true /\
  parse_log_and_show_dagda_warnings Monday
    (text "Mon Jan  1 10:00:00 2024: Falco initialized|Rule Write below etc: warning (unknown-source):|  macro never used|")
  = [].
Proof.
  refine (single_rule_block_logs_nothing Monday _
            (lit "Rule Write below etc: warning (unknown-source):")
            [lit "Mon Jan  1 10:00:00 2024: Falco initialized"]
            [lit "  macro never used"; []] _ _ _ _);
    try (vm_compute; reflexivity); repeat constructor.
Defined.
